(** * CMS report to SIF form conversion: a shallow embedding

    The development follows the Python sources under [tools/cms-to-sif]:
    [models.py] (record and field mapping), [cms_parser.py] (regular-expression
    extraction), [pdf_loader.py] (text extraction and form introspection),
    [sif_filler.py] (projection, form filling, mapping report), [main.py]
    (library orchestration) and [main_script.py] (browser orchestration).

    Python [str] values are modelled by [string]; a character is a code point
    below 256.  On that range an ASCII letter of a pattern matches, under
    [re.IGNORECASE], exactly its two ASCII case variants, [\d] is [0-9] and
    [\s] is the set recognised by [is_space] below. *)

From Stdlib Require Import String Ascii List Bool Arith Lia.
From Stdlib Require Import Sorted Permutation.
Import ListNotations.
Local Open Scope string_scope.
Local Open Scope list_scope.
Local Open Scope nat_scope.

(** ** Characters and Python string helpers *)

Definition is_space (c : ascii) : bool :=
  let n := nat_of_ascii c in
  ((9 <=? n) && (n <=? 13)) || ((28 <=? n) && (n <=? 32))
  || (n =? 133) || (n =? 160).

Definition is_digit (c : ascii) : bool :=
  let n := nat_of_ascii c in (48 <=? n) && (n <=? 57).

Definition lower (c : ascii) : ascii :=
  let n := nat_of_ascii c in
  if (65 <=? n) && (n <=? 90) then ascii_of_nat (n + 32) else c.

Definition upper (c : ascii) : ascii :=
  let n := nat_of_ascii c in
  if (97 <=? n) && (n <=? 122) then ascii_of_nat (n - 32) else c.

Fixpoint lstrip_l (w : list ascii) : list ascii :=
  match w with
  | c :: w' => if is_space c then lstrip_l w' else w
  | [] => []
  end.

Definition strip_l (w : list ascii) : list ascii :=
  rev (lstrip_l (rev (lstrip_l w))).

(** [s.strip()] *)
Definition strip (s : string) : string :=
  string_of_list_ascii (strip_l (list_ascii_of_string s)).

(** [sep.join(parts)] *)
Fixpoint join (sep : string) (parts : list string) : string :=
  match parts with
  | [] => ""
  | [p] => p
  | p :: rest => (p ++ sep ++ join sep rest)%string
  end.

(** [s.startswith(p)] *)
Definition startswith (s p : string) : bool := String.prefix p s.

(** Truth value of an [Optional[str]]: [None] and the empty string are false. *)
Definition truthy (o : option string) : bool :=
  match o with
  | Some s => negb (String.eqb s "")
  | None => false
  end.

(** [a or b] on [Optional[str]] operands. *)
Definition py_or (a b : option string) : option string :=
  if truthy a then a else b.

(** ** Regular expressions

    Only the constructs occurring in [cms_parser.py] are represented.  Every
    quantifier of the source applies to a single character set, so repetition
    is a constructor on sets.  Every pattern of the source is a non-capturing
    head followed by one capturing tail. *)

Inductive citem : Type :=
| CChr (c : ascii)
| CRange (lo hi : ascii)
| CSpace
| CDigit.

Record cset : Type := { cs_neg : bool; cs_items : list citem }.

Inductive regex : Type :=
| REps
| RChr (c : ascii)
| RSet (cs : cset) (lo : nat) (hi : option nat)
| RBol
| RCat (a b : regex)
| RAlt (a b : regex).

Record pattern : Type := { p_head : regex; p_group : regex }.

Record flags : Type := { ignorecase : bool; multiline : bool }.

Definition IGNORECASE : flags := {| ignorecase := true; multiline := false |}.
Definition MULTILINE : flags := {| ignorecase := false; multiline := true |}.

Definition item_plain (it : citem) (ch : ascii) : bool :=
  match it with
  | CChr c => Ascii.eqb ch c
  | CRange lo hi =>
      (nat_of_ascii lo <=? nat_of_ascii ch) && (nat_of_ascii ch <=? nat_of_ascii hi)
  | CSpace => is_space ch
  | CDigit => is_digit ch
  end.

Definition item_match (ic : bool) (it : citem) (ch : ascii) : bool :=
  item_plain it ch
  || (ic && (item_plain it (lower ch) || item_plain it (upper ch))).

Definition in_set (ic : bool) (cs : cset) (ch : ascii) : bool :=
  xorb (cs_neg cs) (existsb (fun it => item_match ic it ch) (cs_items cs)).

Definition chr_match (ic : bool) (c ch : ascii) : bool :=
  Ascii.eqb ch c || (ic && Ascii.eqb (lower ch) (lower c)).

(** [^] : start of the text, or after a line feed under [re.MULTILINE]. *)
Definition at_bol (fl : flags) (prev : option ascii) : bool :=
  match prev with
  | None => true
  | Some c => multiline fl && Ascii.eqb c "010"%char
  end.

Section Matcher.
Variable fl : flags.
Variable R : Type.

(** Greedy bounded repetition of a set, giving characters back one at a
    time when the continuation fails. *)
Fixpoint m_set (cs : cset) (lo : nat) (hi : option nat)
         (prev : option ascii) (s : list ascii)
         (k : option ascii -> list ascii -> option R) : option R :=
  let stop := if lo =? 0 then k prev s else None in
  match s with
  | c :: s' =>
      if match hi with Some 0 => false | _ => in_set (ignorecase fl) cs c end
      then match m_set cs (pred lo) (option_map pred hi) (Some c) s' k with
           | Some r => Some r
           | None => stop
           end
      else stop
  | [] => stop
  end.

(** Backtracking matcher in continuation-passing style: alternatives are
    tried left to right, repetitions longest first. *)
Fixpoint m (r : regex) (prev : option ascii) (s : list ascii)
         (k : option ascii -> list ascii -> option R) : option R :=
  match r with
  | REps => k prev s
  | RChr c =>
      match s with
      | ch :: s' => if chr_match (ignorecase fl) c ch then k (Some ch) s' else None
      | [] => None
      end
  | RSet cs lo hi => m_set cs lo hi prev s k
  | RBol => if at_bol fl prev then k prev s else None
  | RCat a b => m a prev s (fun p' s' => m b p' s' k)
  | RAlt a b =>
      match m a prev s k with
      | Some x => Some x
      | None => m b prev s k
      end
  end.
End Matcher.

Arguments m_set fl {R} cs lo hi prev s k.
Arguments m fl {R} r prev s k.

(** A match attempt at one position: the captured group and the text left
    after the whole match. *)
Definition match_here (fl : flags) (p : pattern) (prev : option ascii)
           (s : list ascii) : option (list ascii * list ascii) :=
  m fl (p_head p) prev s
    (fun p1 s1 =>
       m fl (p_group p) p1 s1
         (fun _ s2 => Some (firstn (List.length s1 - List.length s2) s1, s2))).

(** [re.search]: the leftmost position at which the pattern matches. *)
Fixpoint search_from (fl : flags) (p : pattern) (prev : option ascii)
         (s : list ascii) : option (list ascii) :=
  match match_here fl p prev s with
  | Some (g, _) => Some g
  | None =>
      match s with
      | c :: s' => search_from fl p (Some c) s'
      | [] => None
      end
  end.

Definition re_search (fl : flags) (p : pattern) (text : string)
  : option string :=
  option_map string_of_list_ascii
             (search_from fl p None (list_ascii_of_string text)).

(** [re.findall] with one group: the groups of the successive
    non-overlapping matches.  [skip] counts the characters still covered by
    the previous match. *)
Fixpoint findall_from (fl : flags) (p : pattern) (skip : nat)
         (prev : option ascii) (s : list ascii) : list (list ascii) :=
  match skip with
  | S j =>
      match s with
      | c :: s' => findall_from fl p j (Some c) s'
      | [] => []
      end
  | O =>
      match match_here fl p prev s with
      | Some (g, rest) =>
          g :: match s with
               | c :: s' =>
                   findall_from fl p (List.length s - List.length rest - 1) (Some c) s'
               | [] => []
               end
      | None =>
          match s with
          | c :: s' => findall_from fl p 0 (Some c) s'
          | [] => []
          end
      end
  end.

Definition re_findall (fl : flags) (p : pattern) (text : string)
  : list string :=
  map string_of_list_ascii
      (findall_from fl p 0 None (list_ascii_of_string text)).

(** ** Pattern syntax helpers *)

Fixpoint lit_l (w : list ascii) : regex :=
  match w with
  | [] => REps
  | [c] => RChr c
  | c :: w' => RCat (RChr c) (lit_l w')
  end.

Definition lit (s : string) : regex := lit_l (list_ascii_of_string s).

Fixpoint cat (rs : list regex) : regex :=
  match rs with
  | [] => REps
  | [r] => r
  | r :: rs' => RCat r (cat rs')
  end.

Fixpoint alt (rs : list regex) : regex :=
  match rs with
  | [] => REps
  | [r] => r
  | r :: rs' => RAlt r (alt rs')
  end.

Definition pos (items : list citem) : cset := {| cs_neg := false; cs_items := items |}.
Definition neg (items : list citem) : cset := {| cs_neg := true; cs_items := items |}.

Definition star (cs : cset) : regex := RSet cs 0 None.
Definition plus (cs : cset) : regex := RSet cs 1 None.
Definition rep (cs : cset) (lo hi : nat) : regex := RSet cs lo (Some hi).

Definition LF : ascii := "010"%char.

(** [\s*] *)
Definition ws : regex := star (pos [CSpace]).
(** [[:\s]+] *)
Definition sep : regex := plus (pos [CChr ":"; CSpace]).
(** [[^\n]+] *)
Definition rest_of_line : regex := plus (neg [CChr LF]).
(** [\d{1,3}\.\d{1,3}\.\d{1,3}\.\d{1,3}] *)
Definition dotted : regex :=
  cat [rep (pos [CDigit]) 1 3; RChr "."; rep (pos [CDigit]) 1 3; RChr ".";
       rep (pos [CDigit]) 1 3; RChr "."; rep (pos [CDigit]) 1 3].
(** [[A-Z0-9\-]+] *)
Definition ident : regex := plus (pos [CRange "A" "Z"; CRange "0" "9"; CChr "-"]).

Definition labelled (labels : list regex) (s g : regex) : pattern :=
  {| p_head := RCat (alt labels) s; p_group := g |}.

(** Label words separated by [\s*], as in [Wind\s*Farm]. *)
Fixpoint words (ws_ : list string) : regex :=
  match ws_ with
  | [] => REps
  | [w] => lit w
  | w :: rest => RCat (lit w) (RCat ws (words rest))
  end.

(** ** The record ([models.py], [CmsReportData]) *)

Record CmsReportData : Type := mkCms {
  wind_farm : option string;
  turbine_number : option string;
  turbine_type : option string;
  location : option string;
  service_life_year : option string;
  technicians : option string;
  service_manager : option string;
  commissioning_date : option string;
  service_date : option string;
  ddaus_mac : option string;
  ip_address : option string;
  turbine_ip : option string;
  gateway : option string;
  controller_type : option string;
  das_server : option string;
  serial_number : option string;
  firmware_version : option string;
  raw_text : option string
}.

(** A Python [dict] with string keys: insertion-ordered, one entry per key. *)
Definition dict (V : Type) : Type := list (string * V).

Fixpoint dict_get {V : Type} (d : dict V) (k : string) : option V :=
  match d with
  | [] => None
  | (k', v) :: d' => if String.eqb k' k then Some v else dict_get d' k
  end.

(** [d[k] = v]: an existing key keeps its position, a new key goes last. *)
Fixpoint dict_set {V : Type} (d : dict V) (k : string) (v : V) : dict V :=
  match d with
  | [] => [(k, v)]
  | (k', v') :: d' =>
      if String.eqb k' k then (k', v) :: d' else (k', v') :: dict_set d' k v
  end.

Definition dict_keys {V : Type} (d : dict V) : list string := map fst d.
Definition dict_values {V : Type} (d : dict V) : list V := map snd d.
Definition dict_mem {V : Type} (d : dict V) (k : string) : bool :=
  match dict_get d k with Some _ => true | None => false end.

(** [self.__dict__.items()]: the declared attributes, in declaration order. *)
Definition attributes (c : CmsReportData) : list (string * option string) :=
  [ ("wind_farm", wind_farm c);
    ("turbine_number", turbine_number c);
    ("turbine_type", turbine_type c);
    ("location", location c);
    ("service_life_year", service_life_year c);
    ("technicians", technicians c);
    ("service_manager", service_manager c);
    ("commissioning_date", commissioning_date c);
    ("service_date", service_date c);
    ("ddaus_mac", ddaus_mac c);
    ("ip_address", ip_address c);
    ("turbine_ip", turbine_ip c);
    ("gateway", gateway c);
    ("controller_type", controller_type c);
    ("das_server", das_server c);
    ("serial_number", serial_number c);
    ("firmware_version", firmware_version c);
    ("raw_text", raw_text c) ].

(** The names of the declared attributes of [CmsReportData]. *)
Definition attribute_names : list string :=
  map fst (attributes (mkCms None None None None None None None None None
                             None None None None None None None None None)).

(** [CmsReportData.to_dict]:
    [{k: v for k, v in self.__dict__.items() if v is not None and k != 'raw_text'}] *)
Fixpoint to_dict_items (l : list (string * option string)) : dict string :=
  match l with
  | [] => []
  | (k, Some v) :: l' =>
      if negb (String.eqb k "raw_text") then (k, v) :: to_dict_items l'
      else to_dict_items l'
  | (_, None) :: l' => to_dict_items l'
  end.

Definition to_dict (c : CmsReportData) : dict string :=
  to_dict_items (attributes c).

(** ** The field mapping ([models.py], [CMS_TO_SIF_MAP]) *)

Definition CMS_TO_SIF_MAP : dict string :=
  [ ("wind_farm", "Wind farm number");
    ("turbine_number", "Wind turbine number");
    ("turbine_type", "Wind turbine type_2");
    ("location", "Site location");
    ("service_life_year", "Service life year");
    ("technicians", "Service technician 1");
    ("service_manager", "Service manager");
    ("commissioning_date", "DateRow1");
    ("service_date", "Date");
    ("ddaus_mac", "MAC address DDAU");
    ("ip_address", "IP address DDAU");
    ("turbine_ip", "IP address of the wind turbine");
    ("gateway", "Gateway");
    ("controller_type", "Controller type");
    ("das_server", "DAS Server");
    ("serial_number", "Serial number");
    ("firmware_version", "Firmware version");
    ("gearbox_info", "Gearbox manufacturer type and gearbox ratio");
    ("generator_info", "Generator manufacturer and type");
    ("main_bearing_info", "Main bearing manufacturer and type");
    ("hub_height", "Hub height optional");
    ("owner", "Owner optional");
    ("service_car", "Service car number optional") ].

(** [SIF_TO_CMS_MAP = {v: k for k, v in CMS_TO_SIF_MAP.items()}] *)
Definition invert (d : dict string) : dict string :=
  fold_left (fun acc kv => dict_set acc (snd kv) (fst kv)) d [].

Definition SIF_TO_CMS_MAP : dict string := invert CMS_TO_SIF_MAP.

(** ** The extraction engine ([cms_parser.py]) *)

Module Patterns.
Definition wind_farm : pattern :=
  labelled [words ["Wind"; "Farm"]; lit "WF"; words ["Farm"; "Name"]]
           sep rest_of_line.
Definition turbine_number : pattern :=
  labelled [words ["Turbine"; "Number"]; lit "WTG"; words ["Wind"; "Turbine"]]
           (star (pos [CChr ":"; CSpace; CChr "#"])) ident.
Definition turbine_type : pattern :=
  labelled [words ["Turbine"; "Type"]; lit "Model"; lit "Type"] sep rest_of_line.
Definition location : pattern :=
  labelled [lit "Location"; lit "Site"; lit "Address"] sep rest_of_line.
Definition site_address : pattern :=
  labelled [words ["Site"; "Address"]; lit "Address"] sep rest_of_line.
Definition service_life_year : pattern :=
  labelled [words ["Service"; "Life"; "Year"]; lit "SLY"; lit "Year"]
           sep (rep (pos [CDigit]) 4 4).
Definition technician_names : pattern :=
  labelled [lit "Technician"; lit "Tech"] (star (pos [CChr ":"; CSpace]))
           (cat [rep (pos [CRange "A" "Z"]) 1 1; plus (pos [CRange "a" "z"]);
                 plus (pos [CSpace]);
                 rep (pos [CRange "A" "Z"]) 1 1; plus (pos [CRange "a" "z"])]).
Definition technicians : pattern :=
  labelled [lit "Technician"; words ["Service"; "Tech"]] sep rest_of_line.
Definition service_manager : pattern :=
  labelled [words ["Service"; "Manager"]; lit "Manager"; lit "Supervisor"]
           sep rest_of_line.
Definition date_chars : cset :=
  pos [CRange "0" "9"; CChr "/"; CChr "-"; CChr "."].
Definition commissioning_date : pattern :=
  labelled [words ["Commissioning"; "Date"]; words ["Commission"; "Date"]]
           sep (plus date_chars).
Definition service_date : pattern :=
  labelled [words ["Service"; "Date"]; words ["Inspection"; "Date"]; lit "Date"]
           sep (plus date_chars).
Definition mac_chars : cset :=
  pos [CRange "A" "F"; CRange "0" "9"; CChr ":"].
Definition ddaus_mac : pattern :=
  labelled [words ["MAC"; "Address"]; words ["DDAU"; "MAC"]; lit "MAC"]
           sep (plus mac_chars).
Definition ip_address : pattern :=
  labelled [words ["IP"; "Address"]; lit "IP"] sep dotted.
Definition gateway : pattern :=
  labelled [words ["Default"; "Gateway"]; lit "Gateway"] sep dotted.
Definition controller_type : pattern :=
  labelled [words ["Controller"; "Type"]; lit "Controller"] sep rest_of_line.
Definition das_server : pattern :=
  labelled [words ["DAS"; "Server"]; lit "Server"] sep rest_of_line.
Definition serial_number : pattern :=
  labelled [words ["Serial"; "Number"]; lit "S/N"; lit "Serial"] sep ident.
Definition firmware_version : pattern :=
  labelled [words ["Firmware"; "Version"]; words ["FW"; "Version"]; lit "Firmware"]
           sep (plus (pos [CRange "0" "9"; CChr "."])).
(** [(?:^Name|Name)[:\s]+([^\n]+)] *)
Definition name_field : pattern :=
  labelled [RCat RBol (lit "Name"); lit "Name"] sep rest_of_line.
(** [(?:^Number|Number)[:\s]+([^\n]+)] *)
Definition number_field : pattern :=
  labelled [RCat RBol (lit "Number"); lit "Number"] sep rest_of_line.
End Patterns.

(** The local helper [find(pattern, flags)] of [parse_cms_report]; every call
    of the source leaves [default] at [None]. *)
Definition find (text : string) (p : pattern) (fl : flags) : option string :=
  option_map strip (re_search fl p text).

(** The local helper [find_all]:
    [[m.strip() for m in matches if m.strip()]] *)
Definition find_all (text : string) (p : pattern) (fl : flags) : list string :=
  map strip
      (filter (fun g => negb (String.eqb (strip g) "")) (re_findall fl p text)).

Definition parse_cms_report (text : string) : CmsReportData :=
  let wind_farm := find text Patterns.wind_farm IGNORECASE in
  let turbine_number := find text Patterns.turbine_number IGNORECASE in
  let turbine_type := find text Patterns.turbine_type IGNORECASE in
  let location := find text Patterns.location IGNORECASE in
  let site_address := find text Patterns.site_address IGNORECASE in
  let service_life_year := find text Patterns.service_life_year IGNORECASE in
  let technicians_list := find_all text Patterns.technician_names IGNORECASE in
  let technicians :=
    match technicians_list with
    | _ :: _ => Some (join ", " technicians_list)
    | [] => find text Patterns.technicians IGNORECASE
    end in
  let service_manager := find text Patterns.service_manager IGNORECASE in
  let commissioning_date := find text Patterns.commissioning_date IGNORECASE in
  let service_date := find text Patterns.service_date IGNORECASE in
  let ddaus_mac := find text Patterns.ddaus_mac IGNORECASE in
  let ip_address := find text Patterns.ip_address IGNORECASE in
  let gateway := find text Patterns.gateway IGNORECASE in
  let controller_type := find text Patterns.controller_type IGNORECASE in
  let das_server := find text Patterns.das_server IGNORECASE in
  let serial_number := find text Patterns.serial_number IGNORECASE in
  let firmware_version := find text Patterns.firmware_version IGNORECASE in
  let name_field := find text Patterns.name_field MULTILINE in
  let turbine_number :=
    if truthy name_field && negb (truthy turbine_number)
    then name_field else turbine_number in
  let number_field := find text Patterns.number_field MULTILINE in
  let wind_farm :=
    if truthy number_field && negb (truthy wind_farm)
    then number_field else wind_farm in
  {| wind_farm := py_or wind_farm number_field;
     turbine_number := py_or turbine_number name_field;
     turbine_type := turbine_type;
     location := py_or location site_address;
     service_life_year := service_life_year;
     technicians := technicians;
     service_manager := service_manager;
     commissioning_date := commissioning_date;
     service_date := service_date;
     ddaus_mac := ddaus_mac;
     ip_address := ip_address;
     turbine_ip := ip_address;
     gateway := gateway;
     controller_type := controller_type;
     das_server := das_server;
     serial_number := serial_number;
     firmware_version := firmware_version;
     raw_text := Some text |}.

Definition NL : string := String LF EmptyString.

(** ** Exceptions *)

Inductive exn : Type :=
| KeyError (msg : string)
| LibraryError (msg : string)
| PdfLoadError (msg : string)
| SifFillError (msg : string)
| ConversionError (msg : string).

(** [str(e)] *)
Definition exn_str (e : exn) : string :=
  match e with
  | KeyError msg | LibraryError msg | PdfLoadError msg
  | SifFillError msg | ConversionError msg => msg
  end.

Inductive result (A : Type) : Type :=
| Ok (a : A)
| Raise (e : exn).
Arguments Ok {A} a.
Arguments Raise {A} e.

Definition bind {A B : Type} (x : result A) (f : A -> result B) : result B :=
  match x with
  | Ok a => f a
  | Raise e => Raise e
  end.

Notation "x <- c ;; k" := (bind c (fun x => k))
  (at level 61, c at next level, right associativity).

(** [try: body  except Exception as e: handler e] *)
Definition try_except {A : Type} (body : result A) (handler : exn -> result A)
  : result A :=
  match body with
  | Ok a => Ok a
  | Raise e => handler e
  end.

(** ** The PDF library

    [pypdf] is not part of the repository: its operations are an interface.
    A call that may raise returns a [result]; updating a form field changes
    the writer and may raise as well. *)

Record field_data : Type := {
  FT : option string;
  V : option string;
  DV : option string
}.

Class PdfLib : Type := {
  bytes : Type;
  reader : Type;
  writer : Type;
  page : Type;
  (** [PdfReader(io.BytesIO(b))] *)
  PdfReader : bytes -> result reader;
  (** [reader.pages] *)
  pages : reader -> list page;
  (** [page.extract_text()] *)
  extract_text : page -> result (option string);
  (** [reader.get_fields()] *)
  get_fields : reader -> result (option (dict field_data));
  (** [writer = PdfWriter(); writer.clone_document_from_reader(reader)] *)
  clone_document_from_reader : reader -> result writer;
  (** [writer.get_fields()] *)
  writer_get_fields : writer -> result (option (dict field_data));
  (** [writer.update_page_form_field_values(writer.pages, {name: value})] *)
  update_page_form_field_values :
    writer -> string -> string -> writer * option exn;
  (** [writer.write(output); output.getvalue()] *)
  write : writer -> result bytes
}.

(** Insertion sort by code points, for [sorted(...)]. *)
Fixpoint insert_sorted (x : string) (l : list string) : list string :=
  match l with
  | [] => [x]
  | y :: l' => if String.leb x y then x :: l else y :: insert_sorted x l'
  end.

Definition sorted (l : list string) : list string :=
  fold_right insert_sorted [] l.

(** ** Value projection ([sif_filler.py], [cms_to_sif_field_values]) *)

Definition project_entry (cms_dict : dict string) (sif_values : dict string)
           (entry : string * string) : dict string :=
  let (cms_field, sif_field) := entry in
  let value := dict_get cms_dict cms_field in
  if truthy value
  then match value with
       | Some v => dict_set sif_values sif_field v
       | None => sif_values
       end
  else sif_values.

Definition cms_to_sif_field_values (cms : CmsReportData)
           (custom_mapping : option (dict string)) : dict string :=
  let mapping :=
    match custom_mapping with
    | Some mp => mp
    | None => CMS_TO_SIF_MAP
    end in
  let cms_dict := to_dict cms in
  fold_left (project_entry cms_dict) mapping [].

(** [extract_text_with_ocr] ([pdf_loader.py]): a placeholder. *)
Definition OCR_PLACEHOLDER : string :=
  "[OCR not yet implemented - text-based PDFs only]".

(** [with_service_date c d] is [c] after [c.service_date = d]. *)
Definition with_service_date (c : CmsReportData) (d : option string)
  : CmsReportData :=
  {| wind_farm := wind_farm c;
     turbine_number := turbine_number c;
     turbine_type := turbine_type c;
     location := location c;
     service_life_year := service_life_year c;
     technicians := technicians c;
     service_manager := service_manager c;
     commissioning_date := commissioning_date c;
     service_date := d;
     ddaus_mac := ddaus_mac c;
     ip_address := ip_address c;
     turbine_ip := turbine_ip c;
     gateway := gateway c;
     controller_type := controller_type c;
     das_server := das_server c;
     serial_number := serial_number c;
     firmware_version := firmware_version c;
     raw_text := raw_text c |}.

(** [datetime.now().strftime('%m/%d/%Y')] on a calendar date. *)
Record datetime : Type := { year : nat; month : nat; day : nat }.

Definition digit (n : nat) : ascii := ascii_of_nat (48 + n mod 10).

Definition strftime_mdY (d : datetime) : string :=
  string_of_list_ascii
    [ digit (month d / 10); digit (month d); "/"%char;
      digit (day d / 10); digit (day d); "/"%char;
      digit (year d / 1000); digit (year d / 100);
      digit (year d / 10); digit (year d) ].

(** The record kept by [extract_cms] ([main_script.py]): the text recognised
    in the browser is parsed, then the service date defaults to today. *)
Definition extract_cms (now : datetime) (ocr_text : string) : CmsReportData :=
  let extracted_cms_data := parse_cms_report ocr_text in
  if negb (truthy (service_date extracted_cms_data))
  then with_service_date extracted_cms_data (Some (strftime_mdY now))
  else extracted_cms_data.

(** ** The mapping report *)

Record mapping_report : Type := {
  cms_total_fields : nat;
  extracted_fields : list string;
  sif_total_fields : nat;
  field_names : list string;
  total_mappings : nat;
  successfully_mapped : nat;
  mapping_details : dict string;
  unmapped_cms_fields : list string;
  unfilled_sif_fields : list string;
  cms_coverage : string;
  sif_coverage : string
}.

(** What [get_mapping_report] returns: the statistic groups, or a dictionary
    with the single key [error]. *)
Inductive report : Type :=
| Statistics (r : mapping_report)
| ErrorOnly (error : string).

Section Pipeline.
Context {lib : PdfLib}.

(** [f"{(mapped / total * 100):.1f}%"]: the floating-point rendering of a
    ratio is left to the caller. *)
Variable percent_1f : nat -> nat -> string.

(** *** [pdf_loader.py] *)

Definition page_text (pg : page) : string :=
  match extract_text pg with
  | Ok (Some t) => t
  | Ok None => ""
  | Raise _ => ""
  end.

Definition extract_pdf_text (pdf_bytes : bytes) : result (string * bool) :=
  try_except
    (rd <- PdfReader pdf_bytes ;;
     let text_chunks := map page_text (pages rd) in
     let full_text := join NL text_chunks in
     let stripped_text := strip full_text in
     let needs_ocr := String.length stripped_text <? 100 in
     Ok (full_text, needs_ocr))
    (fun e => Raise (PdfLoadError ("Failed to read PDF: " ++ exn_str e))).

Definition extract_text_with_ocr (pdf_bytes : bytes) : string :=
  OCR_PLACEHOLDER.

Record field_info : Type := {
  fi_type : string;
  fi_value : string;
  fi_default : string
}.

Definition get_or (o : option string) (d : string) : string :=
  match o with Some x => x | None => d end.

(** [reader.get_fields()] is a function of the reader: the repeated calls
    of the source are one call here. *)
Definition get_form_fields (pdf_bytes : bytes) : result (dict field_info) :=
  try_except
    (rd <- PdfReader pdf_bytes ;;
     fs <- get_fields rd ;;
     match fs with
     | None => Ok []
     | Some d =>
         Ok (fold_left
               (fun fields (nf : string * field_data) =>
                  dict_set fields (fst nf)
                    {| fi_type := get_or (FT (snd nf)) "Unknown";
                       fi_value := get_or (V (snd nf)) "";
                       fi_default := get_or (DV (snd nf)) "" |})
               d [])
     end)
    (fun _ => Ok []).

(** *** [sif_filler.py] *)

Definition NO_FIELDS : string :=
  "SIF template does not contain form fields (AcroForm)".

(** One iteration of the fill loop: the writer after the call and the
    warning printed, if any. *)
Definition fill_one (st : writer * list string) (fv : string * string)
  : writer * list string :=
  let (w, out) := st in
  let (field_name, value) := fv in
  match update_page_form_field_values w field_name value with
  | (w', None) => (w', out)
  | (w', Some (KeyError _)) =>
      (w', out ++ ["Warning: Field '" ++ field_name
                     ++ "' not found in SIF template"]%string)
  | (w', Some e) =>
      (w', out ++ ["Warning: Could not set field '" ++ field_name
                     ++ "': " ++ exn_str e]%string)
  end.

(** The [try] block of [fill_sif_form]: the lines printed and the outcome. *)
Definition fill_body (sif_template_bytes : bytes)
           (field_values : dict string) (flatten : bool)
  : list string * result bytes :=
  match (rd <- PdfReader sif_template_bytes ;;
         w <- clone_document_from_reader rd ;;
         fs <- writer_get_fields w ;;
         match fs with
         | None => Raise (SifFillError NO_FIELDS)
         | Some _ => Ok w
         end) with
  | Raise e => ([], Raise e)
  | Ok w =>
      let (w', out) := fold_left fill_one field_values (w, []) in
      (out, write w')
  end.

(** [except SifFillError: raise] then [except Exception as e: raise
    SifFillError(...)] *)
Definition fill_handler (e : exn) : result bytes :=
  match e with
  | SifFillError _ => Raise e
  | _ => Raise (SifFillError ("Failed to fill SIF form: " ++ exn_str e))
  end.

Definition fill_sif_form (sif_template_bytes : bytes)
           (field_values : dict string) (flatten : bool)
  : list string * result bytes :=
  let (out, r) := fill_body sif_template_bytes field_values flatten in
  (out, try_except r fill_handler).

Definition get_unfilled_fields (sif_template_bytes : bytes)
           (field_values : dict string) : list string :=
  match (rd <- PdfReader sif_template_bytes ;;
         fs <- get_fields rd ;;
         match fs with
         | None => Ok []
         | Some d =>
             Ok (sorted (filter (fun n => negb (dict_mem field_values n))
                                (nodup string_dec (dict_keys d))))
         end) with
  | Ok l => l
  | Raise _ => []
  end.

Definition coverage (mapped total : nat) : string :=
  if 0 <? total then (percent_1f mapped total ++ "%")%string else "N/A".

(** The [try] block of [get_mapping_report]. *)
Definition mapping_report_body (cms : CmsReportData)
           (sif_template_bytes : bytes)
           (custom_mapping : option (dict string)) : result mapping_report :=
  let cms_fields := to_dict cms in
  rd <- PdfReader sif_template_bytes ;;
  fs <- get_fields rd ;;
  let sif_fields :=
    match fs with
    | Some (f :: d) => f :: d
    | _ => []
    end in
  let sif_values := cms_to_sif_field_values cms custom_mapping in
  let total_cms_fields := List.length cms_fields in
  let total_sif_fields := List.length sif_fields in
  let mapped_fields := List.length sif_values in
  let mapping :=
    match custom_mapping with
    | Some mp => mp
    | None => CMS_TO_SIF_MAP
    end in
  let unmapped_cms :=
    filter (fun field => negb (dict_mem mapping field)) (dict_keys cms_fields) in
  let unfilled_sif := get_unfilled_fields sif_template_bytes sif_values in
  Ok {| cms_total_fields := total_cms_fields;
        extracted_fields := dict_keys cms_fields;
        sif_total_fields := total_sif_fields;
        field_names := dict_keys sif_fields;
        total_mappings := List.length mapping;
        successfully_mapped := mapped_fields;
        mapping_details := sif_values;
        unmapped_cms_fields := unmapped_cms;
        unfilled_sif_fields := unfilled_sif;
        cms_coverage := coverage mapped_fields total_cms_fields;
        sif_coverage := coverage mapped_fields total_sif_fields |}.

Definition get_mapping_report (cms : CmsReportData)
           (sif_template_bytes : bytes)
           (custom_mapping : option (dict string)) : result report :=
  try_except
    (r <- mapping_report_body cms sif_template_bytes custom_mapping ;;
     Ok (Statistics r))
    (fun e =>
       Ok (ErrorOnly ("Could not generate mapping report: " ++ exn_str e))).

(** [create_filled_sif]; under [debug] the statistic groups of the report
    are printed, which raises [KeyError] on a report without them. *)
Definition create_filled_sif (cms : CmsReportData)
           (sif_template_bytes : bytes)
           (custom_mapping : option (dict string))
           (flatten debug : bool) : result (bytes * report) :=
  let sif_values := cms_to_sif_field_values cms custom_mapping in
  filled_pdf <- snd (fill_sif_form sif_template_bytes sif_values flatten) ;;
  rp <- get_mapping_report cms sif_template_bytes custom_mapping ;;
  match rp with
  | ErrorOnly _ =>
      if debug then Raise (KeyError "'cms_extraction'")
      else Ok (filled_pdf, rp)
  | Statistics _ => Ok (filled_pdf, rp)
  end.

(** *** [main.py] *)

Definition process_cms_report (cms_pdf_bytes : bytes)
  : result CmsReportData :=
  try_except
    (tn <- extract_pdf_text cms_pdf_bytes ;;
     let (text, needs_ocr) := (tn : string * bool) in
     let text :=
       if needs_ocr
       then let ocr_text := extract_text_with_ocr cms_pdf_bytes in
            if negb (String.eqb ocr_text "")
               && negb (startswith ocr_text "[OCR not yet implemented")
            then ocr_text else text
       else text in
     Ok (parse_cms_report text))
    (fun e =>
       match e with
       | PdfLoadError _ =>
           Raise (ConversionError ("Failed to load CMS PDF: " ++ exn_str e))
       | _ =>
           Raise (ConversionError
                    ("Failed to process CMS report: " ++ exn_str e))
       end).

Definition create_sif_from_cms (cms_data : CmsReportData)
           (sif_template_bytes : bytes)
           (custom_mapping : option (dict string))
           (flatten debug : bool) : result (bytes * report) :=
  try_except
    (create_filled_sif cms_data sif_template_bytes custom_mapping flatten debug)
    (fun e =>
       match e with
       | SifFillError _ =>
           Raise (ConversionError
                    ("Failed to fill SIF template: " ++ exn_str e))
       | _ =>
           Raise (ConversionError ("Failed to generate SIF: " ++ exn_str e))
       end).

Definition convert_cms_to_sif (cms_pdf_bytes sif_template_bytes : bytes)
           (custom_mapping : option (dict string))
           (flatten debug : bool) : result (bytes * report) :=
  cms_data <- process_cms_report cms_pdf_bytes ;;
  create_sif_from_cms cms_data sif_template_bytes custom_mapping flatten debug.

End Pipeline.

(** ** An in-memory PDF library

    A document is its page texts and its form; it serves to run the pipeline
    on concrete inputs. *)

Module Sample.
Record doc : Type := {
  well_formed : bool;
  page_texts : list (option string);
  form : option (dict field_data)
}.

Definition set_value (d : doc) (name value : string) : doc :=
  {| well_formed := well_formed d;
     page_texts := page_texts d;
     form :=
       match form d with
       | Some fs =>
           Some (dict_set fs name
                   {| FT := match dict_get fs name with
                            | Some f => FT f
                            | None => None
                            end;
                      V := Some value;
                      DV := match dict_get fs name with
                            | Some f => DV f
                            | None => None
                            end |})
       | None => None
       end |}.

Definition update (d : doc) (name value : string) : doc * option exn :=
  match form d with
  | Some fs =>
      if dict_mem fs name then (set_value d name value, None)
      else (d, Some (KeyError name))
  | None => (d, Some (KeyError name))
  end.

#[export] Instance lib : PdfLib := {|
  bytes := doc;
  reader := doc;
  writer := doc;
  page := option string;
  PdfReader := fun b =>
    if well_formed b then Ok b else Raise (LibraryError "EOF marker not found");
  pages := page_texts;
  extract_text := fun p => Ok p;
  get_fields := fun r => Ok (form r);
  clone_document_from_reader := fun r => Ok r;
  writer_get_fields := fun w => Ok (form w);
  update_page_form_field_values := update;
  write := fun w => Ok w
|}.

Definition text_field : field_data :=
  {| FT := Some "/Tx"; V := None; DV := None |}.

(** A one-page report. *)
Definition report_of (text : string) : doc :=
  {| well_formed := true; page_texts := [Some text]; form := None |}.

(** A template with the given text fields. *)
Definition template_of (names : list string) : doc :=
  {| well_formed := true;
     page_texts := [];
     form := Some (map (fun n => (n, text_field)) names) |}.

(** A readable document without any form. *)
Definition no_form : doc :=
  {| well_formed := true; page_texts := [Some "plain"]; form := None |}.

(** Bytes that are not a PDF. *)
Definition garbage : doc :=
  {| well_formed := false; page_texts := []; form := None |}.
End Sample.

(** ** Shapes of extracted values *)

Definition all_chars (P : ascii -> bool) (s : string) : Prop :=
  Forall (fun c => P c = true) (list_ascii_of_string s).






(** [v] occurs verbatim in [text]. *)
Definition occurs_in (v text : string) : Prop :=
  exists before after : string, text = (before ++ v ++ after)%string.

(** The words accepted by a regular expression (line anchors aside). *)
Fixpoint accepts (ic : bool) (r : regex) (w : list ascii) : Prop :=
  match r with
  | REps => w = []
  | RChr c => exists ch, w = [ch] /\ chr_match ic c ch = true
  | RSet cs lo hi =>
      Forall (fun ch => in_set ic cs ch = true) w
      /\ lo <= List.length w
      /\ match hi with Some h => List.length w <= h | None => True end
  | RBol => w = []
  | RCat a b => exists w1 w2, w = w1 ++ w2 /\ accepts ic a w1 /\ accepts ic b w2
  | RAlt a b => accepts ic a w \/ accepts ic b w
  end.

(** ** Fallback patterns for comparison *)

(** [label[:\s]+([^\n]+)]: the label anywhere in the text. *)
Definition anywhere (label : string) : pattern :=
  labelled [lit label] sep rest_of_line.

(** Following the specification's words, the fallback patterns anchored at the
    start of a line: [^Name[:\s]+([^\n]+)] and [^Number[:\s]+([^\n]+)]. *)
Module LineAnchored.
Definition name_field : pattern :=
  labelled [RCat RBol (lit "Name")] sep rest_of_line.
Definition number_field : pattern :=
  labelled [RCat RBol (lit "Number")] sep rest_of_line.
End LineAnchored.

(** ** Auxiliary definitions for the statements *)

Definition is_attribute (k : string) : bool :=
  existsb (String.eqb k) attribute_names.

(** [with_raw_text c t] is [c] with another full text. *)
Definition with_raw_text (c : CmsReportData) (t : option string)
  : CmsReportData :=
  {| wind_farm := wind_farm c;
     turbine_number := turbine_number c;
     turbine_type := turbine_type c;
     location := location c;
     service_life_year := service_life_year c;
     technicians := technicians c;
     service_manager := service_manager c;
     commissioning_date := commissioning_date c;
     service_date := service_date c;
     ddaus_mac := ddaus_mac c;
     ip_address := ip_address c;
     turbine_ip := turbine_ip c;
     gateway := gateway c;
     controller_type := controller_type c;
     das_server := das_server c;
     serial_number := serial_number c;
     firmware_version := firmware_version c;
     raw_text := t |}.

(** The mapping in effect. *)
Definition effective_mapping (custom_mapping : option (dict string))
  : dict string :=
  match custom_mapping with
  | Some mp => mp
  | None => CMS_TO_SIF_MAP
  end.

Fixpoint distinct (l : list string) : bool :=
  match l with
  | [] => true
  | x :: l' => negb (existsb (String.eqb x) l') && distinct l'
  end.

(** A record with a farm and a location only. *)
Definition farm_and_location : CmsReportData :=
  mkCms (Some "North") None None (Some "Harbour") None None None None None
        None None None None None None None None (Some "full text").

(** A text of exactly one hundred characters, and one of ninety-nine. *)
Definition hundred_chars : string := string_of_list_ascii (repeat "x"%char 100).
Definition ninety_nine_chars : string := string_of_list_ascii (repeat "x"%char 99).



Definition report_error (e : exn) : string :=
  ("Could not generate mapping report: " ++ exn_str e)%string.



(** The fourth of November 2026. *)
Definition a_day : datetime := {| year := 2026; month := 11; day := 4 |}.

(** ** Further functions of the tool *)

Section Tool.
Context {lib : PdfLib}.

(** *** [pdf_loader.py] *)

Definition load_pdf_reader (pdf_bytes : bytes) : result reader :=
  try_except (PdfReader pdf_bytes)
    (fun e => Raise (PdfLoadError ("Failed to load PDF: " ++ exn_str e))).

Definition clone_pdf_for_writing (pdf_bytes : bytes) : result writer :=
  try_except
    (rd <- PdfReader pdf_bytes ;;
     clone_document_from_reader rd)
    (fun e =>
       Raise (PdfLoadError ("Failed to clone PDF for writing: " ++ exn_str e))).

Definition save_pdf_to_bytes (w : writer) : result bytes := write w.

(** *** [sif_filler.py] *)

Definition get_sif_field_names (sif_template_bytes : bytes)
  : result (list string) :=
  try_except
    (rd <- PdfReader sif_template_bytes ;;
     fields <- get_fields rd ;;
     match fields with
     | None => Raise (SifFillError NO_FIELDS)
     | Some d => Ok (sorted (dict_keys d))
     end)
    (fun e =>
       match e with
       | SifFillError _ => Raise e
       | _ =>
           Raise (SifFillError
                    ("Failed to read SIF field names: " ++ exn_str e))
       end).

(** [validate_sif_fields]: [(all_present, missing_fields)]. *)
Definition validate_sif_fields (sif_template_bytes : bytes)
           (expected_fields : list string) : bool * list string :=
  match (rd <- PdfReader sif_template_bytes ;;
         fields <- get_fields rd ;;
         match fields with
         | None => Ok (false, expected_fields)
         | Some d =>
             let missing :=
               filter (fun field => negb (dict_mem d field)) expected_fields in
             Ok (List.length missing =? 0, missing)
         end) with
  | Ok r => r
  | Raise _ => (false, expected_fields)
  end.

(** *** [main.py] *)




(** The document information read by [get_pdf_metadata]; the accessors are
    [reader.is_encrypted] and [reader.metadata]. *)
Variable is_encrypted : reader -> result bool.
Variable metadata : reader -> result (option (dict string)).

Record document_info : Type := {
  title : string;
  author : string;
  subject : string;
  creator : string;
  producer : string
}.

Inductive pdf_metadata : Type :=
| Metadata (page_count : nat) (encrypted : bool) (info : option document_info)
| MetadataError (error : string).

Definition get_str (d : dict string) (k : string) : string :=
  match dict_get d k with Some x => x | None => "" end.

Definition get_pdf_metadata (pdf_bytes : bytes) : pdf_metadata :=
  match (rd <- PdfReader pdf_bytes ;;
         enc <- is_encrypted rd ;;
         md <- metadata rd ;;
         Ok (Metadata (List.length (pages rd)) enc
               match md with
               | Some (e :: d) =>
                   let d := e :: d in
                   Some {| title := get_str d "/Title";
                           author := get_str d "/Author";
                           subject := get_str d "/Subject";
                           creator := get_str d "/Creator";
                           producer := get_str d "/Producer" |}
               | _ => None
               end)) with
  | Ok m => m
  | Raise e => MetadataError (exn_str e)
  end.

(** What [validate_sif_template] returns. *)
Inductive validation : Type :=
| Validation (is_valid : bool) (field_count : nat) (fields : list string)
             (meta : pdf_metadata) (message : string)
| ValidationFailure (error : string).

Definition validate_sif_template (sif_template_bytes : bytes) : validation :=
  let meta := get_pdf_metadata sif_template_bytes in
  match get_form_fields sif_template_bytes with
  | Ok fields =>
      let is_valid := 0 <? List.length fields in
      Validation is_valid (List.length fields) (dict_keys fields) meta
                 (if is_valid then "Valid SIF template"
                  else "No form fields found in PDF")
  | Raise e => ValidationFailure (exn_str e)
  end.

End Tool.

(** ** Auxiliary definitions for further statements *)


Definition swap (kv : string * string) : string * string := (snd kv, fst kv).

(** [s.strip() == s] *)
Definition trimmed (s : string) : Prop := strip s = s.


Definition string_le (a b : string) : Prop := String.leb a b = true.




(** The table built by [get_form_fields] for one field. *)
Definition info_of (f : field_data) : field_info :=
  {| fi_type := get_or (FT f) "Unknown";
     fi_value := get_or (V f) "";
     fi_default := get_or (DV f) "" |}.

(** A calendar date as [datetime.now()] returns it. *)
Definition calendar_date (d : datetime) : Prop :=
  1 <= year d / 1000 <= 9 /\ 1 <= month d <= 12 /\ 1 <= day d <= 31.

(** The number a run of decimal digits denotes. *)
Definition digit_value (c : ascii) : nat := nat_of_ascii c - 48.

Definition decimal (s : string) : nat :=
  fold_left (fun n c => 10 * n + digit_value c) (list_ascii_of_string s) 0.

(** A rendering of percentages for running reports on examples. *)
Definition sample_percent (mapped total : nat) : string := "50.0".


(** The word does not begin with white space. *)
Definition starts_clean (w : list ascii) : Prop :=
  match w with
  | [] => True
  | c :: _ => is_space c = false
  end.


(** ** Soundness of the matcher *)

Section MatcherFacts.
Variable fl : flags.
Variable R : Type.

Lemma m_set_sound (cs : cset) (s : list ascii) :
  forall lo hi prev (k : option ascii -> list ascii -> option R) x,
    m_set fl cs lo hi prev s k = Some x ->
    exists w s' p',
      s = w ++ s'
      /\ accepts (ignorecase fl) (RSet cs lo hi) w
      /\ k p' s' = Some x.
Proof.
  induction s as [|c s IH]; intros lo hi prev k x H; simpl in H.
  - destruct (lo =? 0) eqn:E; [|discriminate].
    apply Nat.eqb_eq in E. subst lo.
    exists [], [], prev. simpl. repeat split; auto.
    destruct hi; lia.
  - assert (Hstop :
        (if lo =? 0 then k prev (c :: s) else None) = Some x ->
        exists w s' p',
          c :: s = w ++ s'
          /\ accepts (ignorecase fl) (RSet cs lo hi) w
          /\ k p' s' = Some x).
    { intros H0. destruct (lo =? 0) eqn:E; [|discriminate].
      apply Nat.eqb_eq in E. subst lo.
      exists [], (c :: s), prev. simpl. repeat split; auto.
      destruct hi; lia. }
    destruct (match hi with Some 0 => false | _ => in_set (ignorecase fl) cs c end)
      eqn:G; [|auto].
    destruct (m_set fl cs (pred lo) (option_map pred hi) (Some c) s k)
      as [r|] eqn:Erec; [|auto].
    injection H as ->.
    destruct (IH _ _ _ _ _ Erec) as (w & s' & p' & -> & (Hall & Hlo & Hhi) & Hk).
    exists (c :: w), s', p'. simpl. repeat split; auto.
    + constructor; auto. destruct hi as [[|h]|]; auto; discriminate.
    + lia.
    + destruct hi as [[|h]|]; simpl in *; auto; try discriminate; lia.
Qed.

Lemma m_sound (r : regex) :
  forall prev s (k : option ascii -> list ascii -> option R) x,
    m fl r prev s k = Some x ->
    exists w s' p',
      s = w ++ s' /\ accepts (ignorecase fl) r w /\ k p' s' = Some x.
Proof.
  induction r as [|c|cs lo hi| |a IHa b IHb|a IHa b IHb];
    intros prev s k x H; simpl in H.
  - exists [], s, prev. simpl. auto.
  - destruct s as [|ch s]; [discriminate|].
    destruct (chr_match (ignorecase fl) c ch) eqn:E; [|discriminate].
    exists [ch], s, (Some ch). simpl. repeat split; eauto.
  - eapply m_set_sound; eauto.
  - destruct (at_bol fl prev); [|discriminate].
    exists [], s, prev. simpl. auto.
  - destruct (IHa _ _ _ _ H) as (w1 & s1 & p1 & -> & Ha & H1).
    destruct (IHb _ _ _ _ H1) as (w2 & s2 & p2 & -> & Hb & H2).
    exists (w1 ++ w2), s2, p2. rewrite <- app_assoc.
    repeat split; auto. simpl. eauto.
  - destruct (m fl a prev s k) as [y|] eqn:E.
    + injection H as ->.
      destruct (IHa _ _ _ _ E) as (w & s' & p' & ? & ? & ?).
      exists w, s', p'. simpl. auto.
    + destruct (IHb _ _ _ _ H) as (w & s' & p' & ? & ? & ?).
      exists w, s', p'. simpl. auto.
Qed.
End MatcherFacts.

Lemma firstn_app_exact (A : Type) (w s : list A) :
  firstn (List.length (w ++ s) - List.length s) (w ++ s) = w.
Proof.
  rewrite length_app, Nat.add_sub.
  rewrite firstn_app, Nat.sub_diag, firstn_all. simpl. apply app_nil_r.
Qed.

Lemma match_here_sound fl p prev s g rest :
  match_here fl p prev s = Some (g, rest) ->
  exists before,
    s = before ++ g ++ rest /\ accepts (ignorecase fl) (p_group p) g.
Proof.
  unfold match_here. intros H.
  apply m_sound in H. destruct H as (w1 & s1 & p1 & -> & _ & H).
  apply m_sound in H. destruct H as (w2 & s2 & p2 & -> & Hg & H).
  rewrite firstn_app_exact in H. injection H as <- <-.
  exists w1. auto.
Qed.

Lemma search_from_sound fl p s :
  forall prev g,
    search_from fl p prev s = Some g ->
    exists before after,
      s = before ++ g ++ after /\ accepts (ignorecase fl) (p_group p) g.
Proof.
  induction s as [|c s IH]; intros prev g H; simpl in H.
  - destruct (match_here fl p prev []) as [[g' rest]|] eqn:E; [|discriminate].
    injection H as ->. apply match_here_sound in E.
    destruct E as (before & ? & ?). eauto.
  - destruct (match_here fl p prev (c :: s)) as [[g' rest]|] eqn:E.
    + injection H as ->. apply match_here_sound in E.
      destruct E as (before & ? & ?). eauto.
    + destruct (IH _ _ H) as (before & after & -> & Hg).
      exists (c :: before), after. auto.
Qed.

(** ** Strings and character classes *)

Lemma string_of_list_ascii_app (a b : list ascii) :
  string_of_list_ascii (a ++ b)
  = (string_of_list_ascii a ++ string_of_list_ascii b)%string.
Proof. induction a as [|c a IH]; simpl; [reflexivity | now rewrite IH]. Qed.










(** What [find] returns is the stripped group of some match. *)
Lemma find_sound text p fl v :
  find text p fl = Some v ->
  exists g before after,
    list_ascii_of_string text = before ++ g ++ after
    /\ accepts (ignorecase fl) (p_group p) g
    /\ v = strip (string_of_list_ascii g).
Proof.
  unfold find, re_search. intros H.
  destruct (search_from fl p None (list_ascii_of_string text)) as [g|] eqn:E;
    [|discriminate].
  simpl in H. injection H as <-.
  apply search_from_sound in E. destruct E as (before & after & ? & ?).
  exists g, before, after. auto.
Qed.








(** ** The extraction engine: network addresses *)



(** An ill-shaped candidate after the label is dropped and the attribute
    stays absent. *)
Example ill_shaped_ip_is_dropped :
  ip_address (parse_cms_report "IP: 1234.1.1.1") = None
  /\ gateway (parse_cms_report "Gateway: local") = None
  /\ ddaus_mac (parse_cms_report "MAC: unknown") = None.
Proof. vm_compute. auto. Qed.

(** An ill-shaped candidate does not stop a later occurrence from matching. *)
Example later_occurrence_applies :
  ip_address (parse_cms_report ("IP: pending" ++ NL ++ "IP Address: 10.0.0.7"))
  = Some "10.0.0.7".
Proof. vm_compute. reflexivity. Qed.


(** ** The extraction engine: cross-attribute fallback *)

Lemma bol_alternative_redundant fl (R : Type) (x : regex) prev s
      (k : option ascii -> list ascii -> option R) :
  m fl (RAlt (RCat RBol x) x) prev s k = m fl x prev s k.
Proof.
  simpl. destruct (at_bol fl prev); [|reflexivity].
  now destruct (m fl x prev s k).
Qed.

Lemma search_anchor_redundant fl label s :
  forall prev,
    search_from fl (labelled [RCat RBol (lit label); lit label] sep rest_of_line)
                prev s
    = search_from fl (anywhere label) prev s.
Proof.
  assert (Hm : forall prev s,
             match_here fl (labelled [RCat RBol (lit label); lit label]
                                     sep rest_of_line) prev s
             = match_here fl (anywhere label) prev s).
  { intros prev s0. unfold match_here, anywhere, labelled, alt.
    cbn [p_head p_group]. cbn [m]. fold (m fl (R := list ascii * list ascii)).
    destruct (at_bol fl prev); [|reflexivity].
    match goal with |- match ?a with _ => _ end = _ => now destruct a end. }
  induction s as [|c s IH]; intros prev; simpl; rewrite Hm.
  - reflexivity.
  - now rewrite IH.
Qed.

Lemma find_anchor_redundant text label fl :
  find text (labelled [RCat RBol (lit label); lit label] sep rest_of_line) fl
  = find text (anywhere label) fl.
Proof. unfold find, re_search. now rewrite search_anchor_redundant. Qed.

Lemma fallback_choice (dedicated generic : option string) :
  py_or (if truthy generic && negb (truthy dedicated) then generic else dedicated)
        generic
  = if truthy dedicated then dedicated else generic.
Proof.
  unfold py_or.
  destruct (truthy dedicated) eqn:Ed, (truthy generic) eqn:Eg; simpl;
    rewrite ?Ed, ?Eg; reflexivity.
Qed.

(** C4 as the specification words it: on [Turbine Number: 5] the
    dedicated farm pattern fails and no line starts with [Number], so a
    line-anchored fallback has nothing to supply; the engine nevertheless
    fills the farm attribute. *)
Lemma line_anchored_fallback_counterexample :
  find "Turbine Number: 5" Patterns.wind_farm IGNORECASE = None
  /\ find "Turbine Number: 5" LineAnchored.number_field MULTILINE = None
  /\ wind_farm (parse_cms_report "Turbine Number: 5") = Some "5"
  /\ wind_farm (parse_cms_report "Turbine Number: 5")
     <> py_or (find "Turbine Number: 5" Patterns.wind_farm IGNORECASE)
              (find "Turbine Number: 5" LineAnchored.number_field MULTILINE).
Proof. vm_compute. repeat split; discriminate. Qed.

(** C4 (amended): the generic fallback patterns match the words [Name] and
    [Number] anywhere in the text, case-sensitively (their line-anchored
    alternative is subsumed by the plain one).  The unit-number attribute is
    the dedicated match when that is non-empty and the generic [Name] match
    otherwise; the farm attribute is the dedicated match when that is
    non-empty and the generic [Number] match otherwise.  So [Name] only ever
    feeds the unit number, [Number] only ever feeds the farm, and a successful
    dedicated match is never replaced.  On [Name: T-004] the unit number is
    [T-004]. *)
Theorem fallback_is_forward_only (text : string) :
  let r := parse_cms_report text in
  let unit_match := find text Patterns.turbine_number IGNORECASE in
  let farm_match := find text Patterns.wind_farm IGNORECASE in
  let name_match := find text (anywhere "Name") MULTILINE in
  let number_match := find text (anywhere "Number") MULTILINE in
  find text Patterns.name_field MULTILINE = name_match
  /\ find text Patterns.number_field MULTILINE = number_match
  /\ turbine_number r = (if truthy unit_match then unit_match else name_match)
  /\ wind_farm r = (if truthy farm_match then farm_match else number_match)
  /\ find "Name: T-004" Patterns.turbine_number IGNORECASE = None
  /\ turbine_number (parse_cms_report "Name: T-004") = Some "T-004".
Proof.
  intros r unit_match farm_match name_match number_match.
  assert (Hname : find text Patterns.name_field MULTILINE = name_match)
    by apply find_anchor_redundant.
  assert (Hnumber : find text Patterns.number_field MULTILINE = number_match)
    by apply find_anchor_redundant.
  split; [exact Hname|]. split; [exact Hnumber|].
  split; [|split; [|split]].
  - rewrite <- Hname. apply fallback_choice.
  - rewrite <- Hnumber. apply fallback_choice.
  - vm_compute. reflexivity.
  - vm_compute. reflexivity.
Qed.

(** A [Name] in the middle of a line feeds the unit number as well. *)
Example name_fallback_mid_line :
  to_dict (parse_cms_report "Farm Name: Delta")
  = [("wind_farm", "Delta"); ("turbine_number", "Delta")].
Proof. vm_compute. reflexivity. Qed.

(** The generic patterns are case-sensitive. *)
Example name_fallback_case_sensitive :
  turbine_number (parse_cms_report "name: T-004") = None.
Proof. vm_compute. reflexivity. Qed.

(** Scenario A of the specification. *)
Example wind_farm_line :
  wind_farm (parse_cms_report ("Report" ++ NL ++ "wind farm:  ABC-12  " ++ NL))
  = Some "ABC-12".
Proof. vm_compute. reflexivity. Qed.

(** ** The field mapping *)

(** C1 (fails on the code): six keys of [CMS_TO_SIF_MAP] name no attribute of
    [CmsReportData]; the other seventeen do. *)
Theorem mapping_keys_without_attribute :
  filter (fun k => negb (is_attribute k)) (dict_keys CMS_TO_SIF_MAP)
  = ["gearbox_info"; "generator_info"; "main_bearing_info";
     "hub_height"; "owner"; "service_car"]
  /\ In "gearbox_info" (dict_keys CMS_TO_SIF_MAP)
  /\ ~ In "gearbox_info" attribute_names.
Proof.
  split; [vm_compute; reflexivity|]. split.
  - vm_compute. tauto.
  - vm_compute. intros H.
    repeat (destruct H as [H|H]; [discriminate|]). exact H.
Qed.

(** ** Dictionaries *)

Lemma dict_get_set (V : Type) (d : dict V) k v k' :
  dict_get (dict_set d k v) k'
  = if String.eqb k k' then Some v else dict_get d k'.
Proof.
  induction d as [|[k0 v0] d IH]; simpl.
  - reflexivity.
  - destruct (String.eqb k0 k) eqn:E0; simpl.
    + apply String.eqb_eq in E0. subst k0.
      now destruct (String.eqb k k').
    + rewrite IH. destruct (String.eqb k0 k') eqn:E1; auto.
      apply String.eqb_eq in E1. subst k'.
      now rewrite String.eqb_sym, E0.
Qed.

Lemma dict_get_keys (V : Type) (d : dict V) k :
  In k (dict_keys d) <-> exists v, dict_get d k = Some v.
Proof.
  induction d as [|[k0 v0] d IH]; simpl.
  - split; [tauto | intros [v H]; discriminate].
  - destruct (String.eqb k0 k) eqn:E.
    + apply String.eqb_eq in E. split; eauto.
    + apply String.eqb_neq in E. rewrite <- IH. tauto.
Qed.

Lemma dict_set_keys (V : Type) (d : dict V) k v :
  dict_keys (dict_set d k v)
  = if existsb (String.eqb k) (dict_keys d) then dict_keys d
    else dict_keys d ++ [k].
Proof.
  induction d as [|[k0 v0] d IH]; simpl; [reflexivity|].
  rewrite (String.eqb_sym k k0).
  destruct (String.eqb k0 k); simpl; [reflexivity|].
  rewrite IH. now destruct (existsb (String.eqb k) (dict_keys d)).
Qed.

Lemma dict_set_nodup (V : Type) (d : dict V) k v :
  NoDup (dict_keys d) -> NoDup (dict_keys (dict_set d k v)).
Proof.
  intros H. rewrite dict_set_keys.
  destruct (existsb (String.eqb k) (dict_keys d)) eqn:E; [exact H|].
  apply NoDup_app; [exact H | repeat constructor; simpl; tauto |].
  intros x Hx Hk. destruct Hk as [Hk|[]]. subst x.
  assert (existsb (String.eqb k) (dict_keys d) = true); [|congruence].
  apply existsb_exists. exists k. split; [exact Hx | apply String.eqb_refl].
Qed.

Lemma distinct_NoDup (l : list string) : distinct l = true -> NoDup l.
Proof.
  induction l as [|x l IH]; simpl; intros H; constructor.
  - apply andb_prop in H. destruct H as [H _]. intros Hin.
    apply negb_true_iff in H.
    assert (existsb (String.eqb x) l = true); [|congruence].
    apply existsb_exists. exists x. split; [exact Hin | apply String.eqb_refl].
  - apply andb_prop in H. tauto.
Qed.

Lemma truthy_true (o : option string) :
  truthy o = true <-> exists v, o = Some v /\ v <> "".
Proof.
  destruct o as [s|]; simpl.
  - rewrite negb_true_iff, String.eqb_neq. split.
    + eauto.
    + now intros (v & [= ->] & H).
  - split; [discriminate | intros (v & H & _); discriminate].
Qed.

Lemma snoc_decompose (A : Type) (l l1 l2 : list A) (a b : A) :
  l ++ [a] = l1 ++ b :: l2 ->
  (l2 = [] /\ l = l1 /\ a = b)
  \/ exists l2', l2 = l2' ++ [a] /\ l = l1 ++ b :: l2'.
Proof.
  intros H. destruct (exists_last (l := b :: l2)) as (l' & x & E);
    [discriminate|].
  destruct l2 as [|c l2].
  - left. change (l ++ [a] = l1 ++ [b]) in H.
    apply app_inj_tail in H. tauto.
  - right. destruct (exists_last (l := c :: l2)) as (l2' & y & E2);
      [discriminate|].
    rewrite E2 in H.
    change (l ++ [a] = l1 ++ (b :: l2') ++ [y]) in H.
    rewrite app_assoc in H. apply app_inj_tail in H.
    destruct H as [-> ->]. exists l2'. rewrite E2. auto.
Qed.

(** ** The dictionary view *)

Lemma to_dict_items_app (l1 l2 : list (string * option string)) :
  to_dict_items (l1 ++ l2) = to_dict_items l1 ++ to_dict_items l2.
Proof.
  induction l1 as [|[k [v|]] l1 IH]; simpl; auto.
  destruct (String.eqb k "raw_text"); simpl; now rewrite IH.
Qed.

Lemma to_dict_items_no_raw_text (l : list (string * option string)) :
  ~ In "raw_text" (dict_keys (to_dict_items l)).
Proof.
  induction l as [|[k [v|]] l IH]; simpl; auto.
  destruct (String.eqb k "raw_text") eqn:E; simpl; auto.
  apply String.eqb_neq in E. intros [H|H]; auto.
Qed.

Lemma to_dict_ignores_raw_text (cms : CmsReportData) (t : option string) :
  to_dict (with_raw_text cms t) = to_dict cms.
Proof.
  unfold to_dict.
  change (attributes (with_raw_text cms t))
    with (firstn 17 (attributes cms) ++ [("raw_text", t)]).
  change (attributes cms)
    with (firstn 17 (attributes cms) ++ [("raw_text", raw_text cms)]) at 2.
  rewrite !to_dict_items_app.
  destruct t, (raw_text cms); reflexivity.
Qed.

(** C6: the full text never appears in the dictionary view of a record, and
    the value projection does not depend on it, whatever the mapping; a
    mapping entry keyed [raw_text] projects nothing. *)
Theorem raw_text_is_never_projected (cms : CmsReportData) :
  ~ In "raw_text" (dict_keys (to_dict cms))
  /\ dict_get (to_dict cms) "raw_text" = None
  /\ (forall (t : option string) (custom_mapping : option (dict string)),
         cms_to_sif_field_values (with_raw_text cms t) custom_mapping
         = cms_to_sif_field_values cms custom_mapping)
  /\ (forall target : string,
         cms_to_sif_field_values cms (Some [("raw_text", target)]) = []).
Proof.
  assert (Hkeys : ~ In "raw_text" (dict_keys (to_dict cms)))
    by apply to_dict_items_no_raw_text.
  assert (Hget : dict_get (to_dict cms) "raw_text" = None).
  { destruct (dict_get (to_dict cms) "raw_text") as [v|] eqn:E; auto.
    exfalso. apply Hkeys. apply dict_get_keys. eauto. }
  repeat split; auto.
  - intros t custom_mapping. unfold cms_to_sif_field_values.
    now rewrite to_dict_ignores_raw_text.
  - intros target. unfold cms_to_sif_field_values. simpl.
    now rewrite Hget.
Qed.

(** ** Value projection *)

Lemma project_entry_get cd acc k t t' :
  dict_get (project_entry cd acc (k, t)) t'
  = if truthy (dict_get cd k) && String.eqb t t'
    then dict_get cd k else dict_get acc t'.
Proof.
  unfold project_entry.
  destruct (dict_get cd k) as [v|]; simpl; [|reflexivity].
  destruct (String.eqb v ""); simpl; [reflexivity|].
  apply dict_get_set.
Qed.

Lemma project_entry_nodup cd acc e :
  NoDup (dict_keys acc) -> NoDup (dict_keys (project_entry cd acc e)).
Proof.
  destruct e as [k t]. unfold project_entry. intros H.
  destruct (dict_get cd k) as [v|]; simpl; [|exact H].
  destruct (String.eqb v ""); simpl; [exact H|].
  now apply dict_set_nodup.
Qed.

Lemma projection_nodup cd l :
  forall acc, NoDup (dict_keys acc) ->
              NoDup (dict_keys (fold_left (project_entry cd) l acc)).
Proof.
  induction l as [|e l IH]; simpl; intros acc H; auto.
  apply IH. now apply project_entry_nodup.
Qed.

(** The entry that decides the projected value of target [t]: the last one
    whose attribute is present and non-empty. *)
Lemma projection_last_writer cd l t v :
  dict_get (fold_left (project_entry cd) l []) t = Some v
  <-> exists l1 k l2,
      l = l1 ++ (k, t) :: l2
      /\ dict_get cd k = Some v /\ v <> ""
      /\ forall k', In (k', t) l2 -> truthy (dict_get cd k') = false.
Proof.
  induction l as [|[k0 t0] l IH] using rev_ind.
  - simpl. split; [discriminate|].
    intros (l1 & k & l2 & H & _). now destruct l1.
  - rewrite fold_left_app. cbn [fold_left]. rewrite project_entry_get.
    destruct (truthy (dict_get cd k0) && String.eqb t0 t) eqn:W.
    + apply andb_prop in W. destruct W as [Wt Weq].
      apply String.eqb_eq in Weq. subst t0.
      split.
      * intros H. exists l, k0, []. repeat split; auto.
        -- apply truthy_true in Wt. destruct Wt as (v' & E & Hne).
           congruence.
        -- intros k' [].
      * intros (l1 & k & l2 & E & Hv & Hne & Hlast).
        apply snoc_decompose in E.
        destruct E as [(_ & _ & [= ->]) | (l2' & -> & _)]; [exact Hv|].
        rewrite Hlast in Wt; [discriminate|].
        apply in_or_app. right. now left.
    + rewrite IH. split.
      * intros (l1 & k & l2 & -> & Hv & Hne & Hlast).
        exists l1, k, (l2 ++ [(k0, t0)]).
        rewrite <- app_assoc. repeat split; auto.
        intros k' Hin. apply in_app_or in Hin.
        destruct Hin as [Hin|[[= -> ->]|[]]]; auto.
        rewrite String.eqb_refl, andb_true_r in W. exact W.
      * intros (l1 & k & l2 & E & Hv & Hne & Hlast).
        apply snoc_decompose in E.
        destruct E as [(_ & _ & [= -> ->]) | (l2' & -> & ->)].
        -- rewrite String.eqb_refl, andb_true_r in W.
           assert (truthy (dict_get cd k) = true); [|congruence].
           apply truthy_true. eauto.
        -- exists l1, k, l2'. repeat split; auto.
           intros k' Hin. apply Hlast. apply in_or_app. now left.
Qed.

(** C5 as stated fails when two attributes are mapped to one target field:
    the projection holds the value of the later entry only, so the pair of
    the earlier entry, whose attribute is present and non-empty, is missing. *)
Lemma projection_collision_counterexample :
  ~ (forall t v,
        dict_get (cms_to_sif_field_values
                    farm_and_location
                    (Some [("wind_farm", "Site"); ("location", "Site")])) t
        = Some v
        <-> exists k,
          In (k, t) [("wind_farm", "Site"); ("location", "Site")]
          /\ dict_get (to_dict farm_and_location) k = Some v /\ v <> "").
Proof.
  intros H.
  assert (E : dict_get (cms_to_sif_field_values
                          farm_and_location
                          (Some [("wind_farm", "Site"); ("location", "Site")]))
                       "Site" = Some "North").
  { apply H. exists "wind_farm". repeat split.
    - now left.
    - discriminate. }
  vm_compute in E. discriminate.
Qed.

(** C5 (amended): the projection maps a target field [t] to [v] exactly when
    the last mapping entry [(k, t)] whose attribute is present and non-empty in
    the dictionary view carries [v]; when the target fields of the mapping are
    pairwise distinct, these are exactly the pairs of the entries whose
    attribute is present and non-empty.  The value is the attribute itself, no
    empty string is ever written, no target occurs twice, and an empty mapping
    yields an empty projection. *)
Theorem projection_characterisation
        (cms : CmsReportData) (custom_mapping : option (dict string)) :
  let mapping := effective_mapping custom_mapping in
  let out := cms_to_sif_field_values cms custom_mapping in
  (forall t v,
      dict_get out t = Some v
      <-> exists l1 k l2,
        mapping = l1 ++ (k, t) :: l2
        /\ dict_get (to_dict cms) k = Some v /\ v <> ""
        /\ forall k', In (k', t) l2 ->
                      truthy (dict_get (to_dict cms) k') = false)
  /\ (NoDup (dict_values mapping) ->
      forall t v,
        dict_get out t = Some v
        <-> exists k,
          In (k, t) mapping
          /\ dict_get (to_dict cms) k = Some v /\ v <> "")
  /\ (forall t, dict_get out t <> Some "")
  /\ NoDup (dict_keys out)
  /\ (mapping = [] -> out = []).
Proof.
  intros mapping out.
  assert (Hlast : forall t v,
             dict_get out t = Some v
             <-> exists l1 k l2,
               mapping = l1 ++ (k, t) :: l2
               /\ dict_get (to_dict cms) k = Some v /\ v <> ""
               /\ forall k', In (k', t) l2 ->
                             truthy (dict_get (to_dict cms) k') = false).
  { intros t v. apply projection_last_writer. }
  split; [exact Hlast|]. split; [|split; [|split]].
  - intros Hnd t v. rewrite Hlast. split.
    + intros (l1 & k & l2 & E & Hv & Hne & _).
      exists k. repeat split; auto.
      rewrite E. apply in_or_app. right. now left.
    + intros (k & Hin & Hv & Hne).
      apply in_split in Hin. destruct Hin as (l1 & l2 & E).
      exists l1, k, l2. repeat split; auto.
      intros k' Hin'. exfalso.
      unfold dict_values in Hnd. rewrite E, map_app in Hnd. simpl in Hnd.
      apply NoDup_remove_2 in Hnd. apply Hnd.
      apply in_or_app. right.
      change t with (snd (k', t)). now apply in_map.
  - intros t H. apply Hlast in H.
    destruct H as (_ & _ & _ & _ & _ & Hne & _). now apply Hne.
  - apply projection_nodup. constructor.
  - intros E. unfold out, cms_to_sif_field_values.
    fold (effective_mapping custom_mapping). fold mapping.
    now rewrite E.
Qed.

Lemma projection_characterisation_witness :
  NoDup (dict_values (effective_mapping None))
  /\ dict_get (cms_to_sif_field_values
                 (parse_cms_report "Wind Farm: ABC-12") None)
              "Wind farm number"
     = Some "ABC-12".
Proof.
  assert (Hnd : NoDup (dict_values (effective_mapping None))).
  { apply distinct_NoDup. vm_compute. reflexivity. }
  split; [exact Hnd|].
  apply (proj1 (proj2 (projection_characterisation
                         (parse_cms_report "Wind Farm: ABC-12") None)) Hnd).
  exists "wind_farm". split; [|split].
  - vm_compute. tauto.
  - vm_compute. reflexivity.
  - discriminate.
Defined.

(** The projection of a record through the default mapping. *)
Example default_projection :
  cms_to_sif_field_values
    (parse_cms_report ("Wind Farm: ABC-12" ++ NL ++ "IP: 10.0.0.7")) None
  = [("Wind farm number", "ABC-12");
     ("IP address DDAU", "10.0.0.7");
     ("IP address of the wind turbine", "10.0.0.7")].
Proof. vm_compute. reflexivity. Qed.

(** ** Text extraction, form filling and reporting *)

Section PipelineFacts.
Context {lib : PdfLib}.
Variable percent_1f : nat -> nat -> string.

(** C9: whenever the document can be read, the extractor returns the page
    texts joined by line feeds together with the flag
    [len(stripped text) < 100]: true below one hundred characters, false
    from one hundred on. *)
Theorem needs_ocr_threshold (pdf_bytes : bytes) (rd : reader) :
  PdfReader pdf_bytes = Ok rd ->
  exists text flag,
    extract_pdf_text pdf_bytes = Ok (text, flag)
    /\ text = join NL (map page_text (pages rd))
    /\ flag = (String.length (strip text) <? 100)
    /\ (String.length (strip text) < 100 -> flag = true)
    /\ (100 <= String.length (strip text) -> flag = false).
Proof.
  intros H. unfold extract_pdf_text. rewrite H. simpl.
  eexists. eexists. split; [reflexivity|]. split; [reflexivity|].
  split; [reflexivity|]. split; intros Hlen.
  - now apply Nat.ltb_lt.
  - now apply Nat.ltb_ge.
Qed.



Lemma get_form_fields_total (pdf_bytes : bytes) :
  exists table, get_form_fields pdf_bytes = Ok table.
Proof.
  unfold get_form_fields.
  destruct (PdfReader pdf_bytes) as [rd|e]; simpl; eauto.
  destruct (get_fields rd) as [[d|]|e]; simpl; eauto.
Qed.


Lemma get_mapping_report_outcome
      (cms : CmsReportData) (sif_template_bytes : bytes)
      (custom_mapping : option (dict string)) :
  get_mapping_report percent_1f cms sif_template_bytes custom_mapping
  = Ok (match mapping_report_body percent_1f cms sif_template_bytes
                                  custom_mapping with
        | Ok st => Statistics st
        | Raise e => ErrorOnly (report_error e)
        end).
Proof.
  unfold get_mapping_report.
  now destruct (mapping_report_body percent_1f cms sif_template_bytes
                                    custom_mapping).
Qed.

Lemma mapping_report_body_details
      (cms : CmsReportData) (sif_template_bytes : bytes)
      (custom_mapping : option (dict string)) (st : mapping_report) :
  mapping_report_body percent_1f cms sif_template_bytes custom_mapping
  = Ok st ->
  mapping_details st = cms_to_sif_field_values cms custom_mapping.
Proof.
  unfold mapping_report_body.
  destruct (PdfReader sif_template_bytes) as [rd|e]; simpl; [|discriminate].
  destruct (get_fields rd) as [fs|e]; simpl; [|discriminate].
  now intros [= <-].
Qed.

(** C8: the mapping reporter always returns a report.  When the template
    cannot be read or its fields cannot be listed the report is the error
    description alone; otherwise it carries the statistic groups. *)
Theorem mapping_report_never_raises
        (cms : CmsReportData) (sif_template_bytes : bytes)
        (custom_mapping : option (dict string)) :
  exists r,
    get_mapping_report percent_1f cms sif_template_bytes custom_mapping = Ok r
    /\ match PdfReader sif_template_bytes with
       | Raise e => r = ErrorOnly (report_error e)
       | Ok rd =>
           match get_fields rd with
           | Raise e => r = ErrorOnly (report_error e)
           | Ok _ =>
               exists st,
                 r = Statistics st
                 /\ mapping_details st
                    = cms_to_sif_field_values cms custom_mapping
           end
       end.
Proof.
  unfold get_mapping_report, mapping_report_body.
  destruct (PdfReader sif_template_bytes) as [rd|e]; simpl; [|eauto].
  destruct (get_fields rd) as [fs|e]; simpl; eauto.
Qed.

(** What [convert_cms_to_sif] projects is the record exactly as the engine
    built it from the text in hand. *)
Lemma convert_projects_the_parsed_record
      (cms_pdf_bytes sif_template_bytes : bytes)
      (custom_mapping : option (dict string)) (flatten debug : bool)
      (pdf : bytes) (st : mapping_report) :
  convert_cms_to_sif percent_1f cms_pdf_bytes sif_template_bytes
                     custom_mapping flatten debug
  = Ok (pdf, Statistics st) ->
  exists text,
    process_cms_report cms_pdf_bytes = Ok (parse_cms_report text)
    /\ mapping_details st
       = cms_to_sif_field_values (parse_cms_report text) custom_mapping.
Proof.
  unfold convert_cms_to_sif. intros H.
  destruct (process_cms_report cms_pdf_bytes) as [cms|e] eqn:Ep;
    [|discriminate].
  assert (Hparse : exists text, cms = parse_cms_report text).
  { unfold process_cms_report in Ep.
    destruct (extract_pdf_text cms_pdf_bytes) as [[text needs_ocr]|e];
      simpl in Ep.
    - injection Ep as <-. eexists. reflexivity.
    - destruct e; discriminate. }
  destruct Hparse as [text ->]. exists text. split; [reflexivity|].
  simpl in H. unfold create_sif_from_cms, create_filled_sif in H.
  destruct (snd (fill_sif_form sif_template_bytes
                   (cms_to_sif_field_values (parse_cms_report text)
                                            custom_mapping) flatten))
    as [filled|e]; simpl in H; [|destruct e; discriminate].
  rewrite get_mapping_report_outcome in H. simpl in H.
  destruct (mapping_report_body percent_1f (parse_cms_report text)
              sif_template_bytes custom_mapping) as [st'|e] eqn:Eb.
  + injection H as _ <-. now apply mapping_report_body_details in Eb.
  + destruct debug; simpl in H; discriminate.
Qed.
End PipelineFacts.

(** ** The pipeline on concrete documents *)

Lemma needs_ocr_threshold_witness :
  PdfReader (PdfLib := Sample.lib) (Sample.report_of hundred_chars)
  = Ok (Sample.report_of hundred_chars)
  /\ exists text,
      extract_pdf_text (lib := Sample.lib) (Sample.report_of hundred_chars)
      = Ok (text, false)
      /\ String.length (strip text) = 100.
Proof.
  split; [reflexivity|].
  destruct (needs_ocr_threshold (lib := Sample.lib)
              (Sample.report_of hundred_chars)
              (Sample.report_of hundred_chars) eq_refl)
    as (text & flag & E & Ht & _ & _ & Hge).
  exists text.
  assert (Hlen : String.length (strip text) = 100)
    by (rewrite Ht; vm_compute; reflexivity).
  split; [|exact Hlen].
  rewrite E, (Hge (Nat.eq_le_incl _ _ (eq_sym Hlen))). reflexivity.
Defined.

(** One character fewer and the flag is raised. *)
Example needs_ocr_below_threshold :
  extract_pdf_text (lib := Sample.lib) (Sample.report_of ninety_nine_chars)
  = Ok (ninety_nine_chars, true).
Proof. vm_compute. reflexivity. Qed.

(** Surrounding white space does not count. *)
Example needs_ocr_counts_stripped_text :
  extract_pdf_text (lib := Sample.lib)
                   (Sample.report_of ("  " ++ ninety_nine_chars ++ NL)%string)
  = Ok (("  " ++ ninety_nine_chars ++ NL)%string, true).
Proof. vm_compute. reflexivity. Qed.


(** Scenario C of the specification: [A] is set, [C] is reported, [B] stays
    unfilled. *)
Example fill_sets_known_fields :
  snd (fill_sif_form (lib := Sample.lib) (Sample.template_of ["A"; "B"])
                     [("A", "x"); ("C", "y")] false)
  = Ok (Sample.set_value (Sample.template_of ["A"; "B"]) "A" "x")
  /\ get_unfilled_fields (lib := Sample.lib) (Sample.template_of ["A"; "B"])
                         [("A", "x"); ("C", "y")]
     = ["B"].
Proof. vm_compute. auto. Qed.

(** Scenario E of the specification. *)
Example template_without_fields :
  snd (fill_sif_form (lib := Sample.lib) Sample.no_form [("A", "x")] false)
  = Raise (SifFillError NO_FIELDS)
  /\ get_form_fields (lib := Sample.lib) Sample.no_form = Ok [].
Proof. vm_compute. auto. Qed.

(** Bytes that are no document give an error-only report. *)
Example report_on_unreadable_template (percent_1f : nat -> nat -> string) :
  get_mapping_report (lib := Sample.lib) percent_1f farm_and_location
                     Sample.garbage None
  = Ok (ErrorOnly "Could not generate mapping report: EOF marker not found").
Proof. vm_compute. reflexivity. Qed.

(** ** The default service date *)

(** The engine itself never defaults the service date. *)
Lemma engine_leaves_service_date (text : string) :
  service_date (parse_cms_report text)
  = find text Patterns.service_date IGNORECASE.
Proof. reflexivity. Qed.

(** [extract_cms] keeps an extracted date and otherwise writes today's date,
    once; every other attribute is as extracted. *)
Lemma extract_cms_service_date (now : datetime) (ocr_text : string) :
  let extracted := parse_cms_report ocr_text in
  service_date (extract_cms now ocr_text)
  = (if truthy (service_date extracted) then service_date extracted
     else Some (strftime_mdY now))
  /\ extract_cms now ocr_text
     = with_service_date extracted (service_date (extract_cms now ocr_text)).
Proof.
  intros extracted. unfold extract_cms. fold extracted.
  destruct (truthy (service_date extracted)); simpl; split; reflexivity.
Qed.

Example strftime_pads_with_zeros :
  strftime_mdY {| year := 2026; month := 3; day := 9 |} = "03/09/2026".
Proof. vm_compute. reflexivity. Qed.

(** C2 (fails on the code): on a report without any date line,
    [convert_cms_to_sif] fills and reports without a service date: the [Date]
    field of the template stays unfilled.  [extract_cms] on the same text
    supplies today's date, which the projection then carries. *)
Theorem convert_cms_to_sif_applies_no_default_date
        (percent_1f : nat -> nat -> string) :
  service_date (parse_cms_report "Wind Farm: ABC-12") = None
  /\ (exists pdf st,
         convert_cms_to_sif (lib := Sample.lib) percent_1f
           (Sample.report_of "Wind Farm: ABC-12")
           (Sample.template_of ["Wind farm number"; "Date"])
           None false false
         = Ok (pdf, Statistics st)
         /\ mapping_details st = [("Wind farm number", "ABC-12")]
         /\ unfilled_sif_fields st = ["Date"])
  /\ cms_to_sif_field_values (extract_cms a_day "Wind Farm: ABC-12") None
     = [("Wind farm number", "ABC-12"); ("Date", "11/04/2026")].
Proof.
  split; [vm_compute; reflexivity|]. split.
  - eexists. eexists. split; [vm_compute; reflexivity|].
    split; reflexivity.
  - vm_compute. reflexivity.
Qed.

(** ** Trimming *)

Lemma list_ascii_of_string_app (a b : string) :
  list_ascii_of_string (a ++ b)
  = list_ascii_of_string a ++ list_ascii_of_string b.
Proof. induction a as [|c a IH]; simpl; [reflexivity | now rewrite IH]. Qed.

Lemma lstrip_l_spec (w : list ascii) :
  exists a,
    w = a ++ lstrip_l w
    /\ Forall (fun c => is_space c = true) a
    /\ starts_clean (lstrip_l w).
Proof.
  induction w as [|c w (a & E & Ha & Hc)]; simpl.
  - exists []. simpl. auto.
  - destruct (is_space c) eqn:Ec.
    + exists (c :: a). simpl. rewrite <- E. auto.
    + exists []. simpl. auto.
Qed.

Lemma lstrip_l_clean (w : list ascii) : starts_clean w -> lstrip_l w = w.
Proof. destruct w as [|c w]; simpl; [reflexivity | now intros ->]. Qed.

Lemma starts_clean_prefix (u v : list ascii) :
  starts_clean (u ++ v) -> starts_clean u.
Proof. destruct u; simpl; auto. Qed.

(** [strip] removes a blank prefix and a blank suffix, and what is left
    neither starts nor ends with white space. *)
Lemma strip_l_spec (w : list ascii) :
  exists a b,
    w = a ++ strip_l w ++ b
    /\ Forall (fun c => is_space c = true) a
    /\ Forall (fun c => is_space c = true) b
    /\ starts_clean (strip_l w)
    /\ starts_clean (rev (strip_l w)).
Proof.
  unfold strip_l.
  destruct (lstrip_l_spec w) as (a & Ew & Ha & Hu).
  destruct (lstrip_l_spec (rev (lstrip_l w))) as (c & Er & Hc & Hr).
  assert (Eu : lstrip_l w = rev (lstrip_l (rev (lstrip_l w))) ++ rev c).
  { rewrite <- rev_app_distr, <- Er. symmetry. apply rev_involutive. }
  exists a, (rev c). repeat split; auto.
  - now rewrite <- Eu.
  - now apply Forall_rev.
  - rewrite Eu in Hu. eapply starts_clean_prefix; eauto.
  - now rewrite rev_involutive.
Qed.

Lemma strip_l_idempotent (w : list ascii) : strip_l (strip_l w) = strip_l w.
Proof.
  destruct (strip_l_spec w) as (_ & _ & _ & _ & _ & H1 & H2).
  unfold strip_l at 1. rewrite (lstrip_l_clean _ H1), (lstrip_l_clean _ H2).
  apply rev_involutive.
Qed.

Lemma strip_trimmed (s : string) : trimmed (strip s).
Proof.
  unfold trimmed, strip.
  now rewrite list_ascii_of_string_of_list_ascii, strip_l_idempotent.
Qed.

Lemma strip_occurs (s : string) : occurs_in (strip s) s.
Proof.
  destruct (strip_l_spec (list_ascii_of_string s)) as (a & b & E & _).
  exists (string_of_list_ascii a), (string_of_list_ascii b). unfold strip.
  rewrite <- !string_of_list_ascii_app, <- E.
  symmetry. apply string_of_list_ascii_of_string.
Qed.

Lemma string_eq_by_chars (a b : string) :
  list_ascii_of_string a = list_ascii_of_string b -> a = b.
Proof.
  intros H. rewrite <- (string_of_list_ascii_of_string a), H.
  apply string_of_list_ascii_of_string.
Qed.

Lemma occurs_in_trans (a b c : string) :
  occurs_in a b -> occurs_in b c -> occurs_in a c.
Proof.
  intros (p1 & q1 & ->) (p2 & q2 & ->).
  exists (p2 ++ p1)%string, (q1 ++ q2)%string.
  apply string_eq_by_chars.
  rewrite !list_ascii_of_string_app, <- !app_assoc. reflexivity.
Qed.

(** Every value [find] returns is a trimmed piece of the text. *)
Lemma find_trimmed_occurrence text p fl v :
  find text p fl = Some v -> occurs_in v text /\ trimmed v.
Proof.
  intros H. apply find_sound in H.
  destruct H as (g & before & after & Htext & _ & ->). split.
  - eapply occurs_in_trans; [apply strip_occurs|].
    exists (string_of_list_ascii before), (string_of_list_ascii after).
    rewrite <- !string_of_list_ascii_app, <- Htext.
    symmetry. apply string_of_list_ascii_of_string.
  - apply strip_trimmed.
Qed.

Lemma py_or_cases (a b : option string) : py_or a b = a \/ py_or a b = b.
Proof. unfold py_or. destruct (truthy a); auto. Qed.

Lemma to_dict_items_in (l : list (string * option string)) k v :
  In (k, v) (to_dict_items l) -> In (k, Some v) l /\ k <> "raw_text".
Proof.
  induction l as [|[k0 [v0|]] l IH]; simpl; [tauto| |].
  - destruct (String.eqb k0 "raw_text") eqn:E; simpl.
    + intros H. destruct (IH H). auto.
    + apply String.eqb_neq in E.
      intros [[= -> ->]|H]; [auto|]. destruct (IH H). auto.
  - intros H. destruct (IH H). auto.
Qed.

Lemma dict_get_in (V : Type) (d : dict V) k v :
  dict_get d k = Some v -> In (k, v) d.
Proof.
  induction d as [|[k0 v0] d IH]; simpl; [discriminate|].
  destruct (String.eqb k0 k) eqn:E.
  - apply String.eqb_eq in E. subst k0. intros [= ->]. now left.
  - intros H. right. auto.
Qed.

Lemma to_dict_unfold (c : CmsReportData) :
  to_dict c = to_dict_items (attributes c).
Proof. reflexivity. Qed.

Lemma to_dict_entry (c : CmsReportData) k v :
  dict_get (to_dict c) k = Some v ->
  In (k, Some v) (attributes c) /\ k <> "raw_text".
Proof.
  intros H. apply dict_get_in in H. rewrite to_dict_unfold in H.
  exact (to_dict_items_in (attributes c) k v H).
Qed.

(** X3: every value in the dictionary view of an extracted record, the joined
    technician list aside, occurs verbatim in the text and has no white space
    at either end. *)
Theorem extracted_values_are_trimmed_pieces (text k v : string) :
  dict_get (to_dict (parse_cms_report text)) k = Some v ->
  k <> "technicians" ->
  occurs_in v text /\ trimmed v.
Proof.
  intros H Hk. apply to_dict_entry in H. destruct H as [H Hraw].
  assert (Hf : forall p fl x,
             find text p fl = Some x -> occurs_in x text /\ trimmed x)
    by (intros; eapply find_trimmed_occurrence; eauto).
  unfold attributes in H.
  repeat (destruct H as [H|H]; [injection H as Ek E; subst k|]).
  - rewrite fallback_choice in E.
    destruct (truthy (find text Patterns.wind_farm IGNORECASE));
      exact (Hf _ _ _ E).
  - rewrite fallback_choice in E.
    destruct (truthy (find text Patterns.turbine_number IGNORECASE));
      exact (Hf _ _ _ E).
  - exact (Hf Patterns.turbine_type IGNORECASE _ E).
  - destruct (py_or_cases (find text Patterns.location IGNORECASE)
                          (find text Patterns.site_address IGNORECASE))
      as [R|R]; rewrite R in E; exact (Hf _ _ _ E).
  - exact (Hf Patterns.service_life_year IGNORECASE _ E).
  - elim Hk. reflexivity.
  - exact (Hf Patterns.service_manager IGNORECASE _ E).
  - exact (Hf Patterns.commissioning_date IGNORECASE _ E).
  - exact (Hf Patterns.service_date IGNORECASE _ E).
  - exact (Hf Patterns.ddaus_mac IGNORECASE _ E).
  - exact (Hf Patterns.ip_address IGNORECASE _ E).
  - exact (Hf Patterns.ip_address IGNORECASE _ E).
  - exact (Hf Patterns.gateway IGNORECASE _ E).
  - exact (Hf Patterns.controller_type IGNORECASE _ E).
  - exact (Hf Patterns.das_server IGNORECASE _ E).
  - exact (Hf Patterns.serial_number IGNORECASE _ E).
  - exact (Hf Patterns.firmware_version IGNORECASE _ E).
  - elim Hraw. reflexivity.
  - destruct H.
Qed.

(** ** The dictionary view, continued *)

Lemma to_dict_items_keys (l : list (string * option string)) k :
  In k (dict_keys (to_dict_items l)) -> In k (map fst l).
Proof.
  induction l as [|[k0 [v0|]] l IH]; simpl; auto.
  destruct (String.eqb k0 "raw_text"); simpl; intuition.
Qed.

Lemma to_dict_items_nodup (l : list (string * option string)) :
  NoDup (map fst l) -> NoDup (dict_keys (to_dict_items l)).
Proof.
  induction l as [|[k0 [v0|]] l IH]; simpl; intros H.
  - constructor.
  - inversion H as [|? ? Hnot Hnd]; subst.
    destruct (String.eqb k0 "raw_text"); simpl; auto.
    constructor; auto. intros Hin. apply Hnot.
    now apply to_dict_items_keys.
  - inversion H; auto.
Qed.

Lemma to_dict_items_get (l : list (string * option string)) k v :
  NoDup (map fst l) -> k <> "raw_text" -> In (k, Some v) l ->
  dict_get (to_dict_items l) k = Some v.
Proof.
  induction l as [|[k0 o] l IH]; simpl; intros Hnd Hk Hin; [destruct Hin|].
  inversion Hnd as [|? ? Hnot Hnd']; subst.
  destruct Hin as [[= -> ->]|Hin].
  - apply String.eqb_neq in Hk. rewrite Hk. simpl.
    now rewrite String.eqb_refl.
  - assert (Hne : k0 <> k).
    { intros ->. apply Hnot. change k with (fst (k, Some v)).
      now apply in_map. }
    apply String.eqb_neq in Hne.
    destruct o as [v0|]; auto.
    destruct (String.eqb k0 "raw_text"); simpl; auto.
    rewrite Hne. auto.
Qed.

Lemma to_dict_items_length (l : list (string * option string)) :
  List.length (to_dict_items l) <= List.length l.
Proof.
  induction l as [|[k0 [v0|]] l IH]; simpl; auto.
  destruct (String.eqb k0 "raw_text"); simpl; lia.
Qed.

Lemma attribute_names_nodup (c : CmsReportData) :
  NoDup (map fst (attributes c)).
Proof. apply distinct_NoDup. reflexivity. Qed.

Lemma to_dict_lookup_length (c : CmsReportData) :
  List.length (to_dict c) <= 17.
Proof.
  rewrite to_dict_unfold.
  change (attributes c)
    with (firstn 17 (attributes c) ++ [("raw_text", raw_text c)]).
  rewrite to_dict_items_app, length_app.
  pose proof (to_dict_items_length (firstn 17 (attributes c))) as H.
  replace (List.length (firstn 17 (attributes c))) with 17 in H
    by reflexivity.
  assert (Hraw : to_dict_items [("raw_text", raw_text c)] = [])
    by (destruct (raw_text c); reflexivity).
  rewrite Hraw. cbn [List.length]. lia.
Qed.

(** X2: the dictionary view holds exactly the declared attributes other than
    [raw_text] that are not [None], each under its own name with its own
    value; no name occurs twice, so the view has at most seventeen entries. *)
Theorem to_dict_lookup (c : CmsReportData) (k v : string) :
  (dict_get (to_dict c) k = Some v
   <-> k <> "raw_text" /\ In (k, Some v) (attributes c))
  /\ NoDup (dict_keys (to_dict c))
  /\ List.length (to_dict c) <= 17.
Proof.
  split; [split|split].
  - intros H. apply to_dict_entry in H. tauto.
  - intros [Hk Hin]. rewrite to_dict_unfold.
    apply to_dict_items_get; auto. apply attribute_names_nodup.
  - rewrite to_dict_unfold. apply to_dict_items_nodup.
    apply attribute_names_nodup.
  - apply to_dict_lookup_length.
Qed.

(** Every key of a dictionary view is a key of the default mapping. *)
Lemma default_mapping_has_view_keys (c : CmsReportData) (k : string) :
  In k (dict_keys (to_dict c)) -> dict_mem CMS_TO_SIF_MAP k = true.
Proof.
  intros H. rewrite to_dict_unfold in H.
  assert (Hraw : k <> "raw_text").
  { intros ->. now apply to_dict_items_no_raw_text in H. }
  apply to_dict_items_keys in H.
  cbn [attributes map fst] in H.
  repeat (destruct H as [H|H]; [subst k; try reflexivity|]).
  - now elim Hraw.
  - destruct H.
Qed.

(** ** Shapes of further attributes *)










(** ** Completeness of the matcher *)

Section MatcherCompleteness.
Variable fl : flags.
Variable R : Type.


End MatcherCompleteness.













(** ** Dictionaries built by insertion *)

Lemma dict_set_fresh (V : Type) (d : dict V) k v :
  ~ In k (dict_keys d) -> dict_set d k v = d ++ [(k, v)].
Proof.
  induction d as [|[k0 v0] d IH]; simpl; intros H; [reflexivity|].
  destruct (String.eqb k0 k) eqn:E.
  - apply String.eqb_eq in E. tauto.
  - rewrite IH; tauto.
Qed.

Lemma fold_dict_set (A V : Type) (kf : A -> string) (vf : A -> V)
      (l : list A) :
  forall acc : dict V,
    NoDup (map kf l) ->
    (forall x, In x l -> ~ In (kf x) (dict_keys acc)) ->
    fold_left (fun acc x => dict_set acc (kf x) (vf x)) l acc
    = acc ++ map (fun x => (kf x, vf x)) l.
Proof.
  induction l as [|x l IH]; intros acc Hnd Hfresh; simpl.
  - now rewrite app_nil_r.
  - inversion Hnd as [|? ? Hnot Hnd']; subst.
    rewrite dict_set_fresh by (apply Hfresh; now left).
    rewrite IH; auto.
    + now rewrite <- app_assoc.
    + intros y Hy Hin. unfold dict_keys in Hin.
      rewrite map_app in Hin. apply in_app_or in Hin.
      destruct Hin as [Hin|[Hin|[]]].
      * apply (Hfresh y); [now right | exact Hin].
      * simpl in Hin. apply Hnot. rewrite Hin. now apply in_map.
Qed.

Lemma dict_get_iff_in (V : Type) (d : dict V) k v :
  NoDup (dict_keys d) -> (dict_get d k = Some v <-> In (k, v) d).
Proof.
  intros Hnd. split; [apply dict_get_in|].
  induction d as [|[k0 v0] d IH]; simpl; [tauto|].
  inversion Hnd as [|? ? Hnot Hnd']; subst.
  intros [[= -> ->]|Hin].
  - now rewrite String.eqb_refl.
  - destruct (String.eqb k0 k) eqn:E; auto.
    apply String.eqb_eq in E. subst k0. exfalso. apply Hnot.
    change k with (fst (k, v)). now apply in_map.
Qed.

Lemma swap_involutive (d : dict string) : map swap (map swap d) = d.
Proof.
  rewrite map_map. rewrite <- (map_id d) at 2.
  apply map_ext. now intros [k v].
Qed.

Lemma invert_distinct (d : dict string) :
  NoDup (dict_values d) -> invert d = map swap d.
Proof.
  intros H. unfold invert.
  rewrite (fold_dict_set _ _ snd fst d []); auto.
Qed.

(** X1: on a mapping whose keys are pairwise distinct and whose target
    fields are pairwise distinct, the reverse index swaps every pair and keeps
    the order; reversing twice gives the mapping back, and a key maps to a
    target exactly when the target maps back to the key. *)
Theorem reverse_index_round_trip (d : dict string) :
  NoDup (dict_keys d) ->
  NoDup (dict_values d) ->
  invert d = map swap d
  /\ invert (invert d) = d
  /\ forall k t, dict_get d k = Some t <-> dict_get (invert d) t = Some k.
Proof.
  intros Hk Hv.
  assert (E : invert d = map swap d) by now apply invert_distinct.
  assert (Hkeys : dict_keys (map swap d) = dict_values d).
  { unfold dict_keys, dict_values. rewrite map_map. reflexivity. }
  assert (Hvals : dict_values (map swap d) = dict_keys d).
  { unfold dict_keys, dict_values. rewrite map_map. reflexivity. }
  split; [exact E|]. split.
  - rewrite E, invert_distinct by now rewrite Hvals.
    apply swap_involutive.
  - intros k t. rewrite E.
    rewrite (dict_get_iff_in _ d k t Hk).
    rewrite (dict_get_iff_in _ (map swap d) t k) by now rewrite Hkeys.
    split.
    + intros H. change (t, k) with (swap (k, t)). now apply in_map.
    + intros H. apply in_map_iff in H.
      destruct H as ([k' t'] & [= <- <-] & H). exact H.
Qed.

Lemma reverse_index_round_trip_witness :
  NoDup (dict_keys CMS_TO_SIF_MAP)
  /\ NoDup (dict_values CMS_TO_SIF_MAP)
  /\ invert SIF_TO_CMS_MAP = CMS_TO_SIF_MAP
  /\ dict_get SIF_TO_CMS_MAP "Wind farm number" = Some "wind_farm".
Proof.
  assert (Hk : NoDup (dict_keys CMS_TO_SIF_MAP))
    by (apply distinct_NoDup; vm_compute; reflexivity).
  assert (Hv : NoDup (dict_values CMS_TO_SIF_MAP))
    by (apply distinct_NoDup; vm_compute; reflexivity).
  destruct (reverse_index_round_trip CMS_TO_SIF_MAP Hk Hv) as (_ & H2 & H3).
  split; [exact Hk|]. split; [exact Hv|]. split; [exact H2|].
  apply H3. vm_compute. reflexivity.
Defined.

(** ** Sorting *)

Lemma insert_sorted_perm x l : Permutation (insert_sorted x l) (x :: l).
Proof.
  induction l as [|y l IH]; simpl; [reflexivity|].
  destruct (String.leb x y); [reflexivity|].
  rewrite IH. apply perm_swap.
Qed.

Lemma sorted_perm l : Permutation (sorted l) l.
Proof.
  induction l as [|x l IH]; simpl; [reflexivity|].
  rewrite insert_sorted_perm. now constructor.
Qed.

Lemma insert_sorted_Sorted x l :
  Sorted string_le l -> Sorted string_le (insert_sorted x l).
Proof.
  induction l as [|y l IH]; simpl; intros H.
  - repeat constructor.
  - destruct (String.leb x y) eqn:E.
    + constructor; [exact H | now constructor].
    + inversion H as [|? ? Hl Hhd]; subst.
      assert (Hyx : string_le y x).
      { destruct (String.leb_total x y) as [T|T]; [congruence | exact T]. }
      constructor; [now apply IH|].
      destruct l as [|z l]; simpl.
      * now constructor.
      * destruct (String.leb x z); constructor; auto.
        now inversion Hhd.
Qed.

Lemma sorted_Sorted l : Sorted string_le (sorted l).
Proof.
  induction l as [|x l IH]; simpl; [constructor|].
  now apply insert_sorted_Sorted.
Qed.

Lemma sorted_in l x : In x (sorted l) <-> In x l.
Proof.
  split; apply Permutation_in;
    [apply sorted_perm | apply Permutation_sym, sorted_perm].
Qed.

(** ** Blank text *)




Lemma percent_is_not_na (s : string) : (s ++ "%")%string <> "N/A".
Proof.
  destruct s as [|a [|b [|c [|d s]]]]; simpl; intros H;
    try discriminate; inversion H.
Qed.

Lemma ocr_placeholder_is_refused :
  negb (String.eqb OCR_PLACEHOLDER "")
  && negb (startswith OCR_PLACEHOLDER "[OCR not yet implemented")
  = false.
Proof. vm_compute. reflexivity. Qed.

Lemma filter_none (A : Type) (f : A -> bool) (l : list A) :
  (forall x, In x l -> f x = false) -> filter f l = [].
Proof.
  induction l as [|x l IH]; simpl; intros H; [reflexivity|].
  rewrite (H x) by now left. apply IH. intros y Hy. apply H. now right.
Qed.

Lemma filter_all (A : Type) (f : A -> bool) (l : list A) :
  (forall x, In x l -> f x = true) -> filter f l = l.
Proof.
  induction l as [|x l IH]; simpl; intros H; [reflexivity|].
  rewrite (H x) by now left. f_equal. apply IH. intros y Hy. apply H. now right.
Qed.

Lemma dict_mem_keys (V : Type) (d : dict V) k :
  dict_mem d k = true <-> In k (dict_keys d).
Proof.
  unfold dict_mem. rewrite dict_get_keys.
  destruct (dict_get d k) as [v|]; split; eauto; try discriminate.
  intros [v H]. discriminate.
Qed.

(** ** Loading, introspection and validation *)

Section ToolFacts.
Context {lib : PdfLib}.
Variable percent_1f : nat -> nat -> string.
Variable is_encrypted : reader -> result bool.
Variable metadata : reader -> result (option (dict string)).


(** X7: [process_cms_report] parses exactly the text the extractor returned:
    the OCR fallback never replaces it, whatever the sparse-text flag says;
    an unreadable report is the only failure, raised as [ConversionError]
    with the loader's message. *)
Theorem process_cms_report_outcome (cms_pdf_bytes : bytes) :
  process_cms_report cms_pdf_bytes
  = match PdfReader cms_pdf_bytes with
    | Ok rd => Ok (parse_cms_report (join NL (map page_text (pages rd))))
    | Raise e =>
        Raise (ConversionError
                 ("Failed to load CMS PDF: Failed to read PDF: " ++ exn_str e))
    end.
Proof.
  unfold process_cms_report, extract_pdf_text, extract_text_with_ocr.
  destruct (PdfReader cms_pdf_bytes) as [rd|e]; [|reflexivity].
  cbn [bind try_except]. rewrite ocr_placeholder_is_refused.
  now destruct (String.length (strip (join NL (map page_text (pages rd))))
                <? 100).
Qed.

(** X8: when the field names of the template are pairwise distinct,
    introspection returns one entry per field, in the template's order, with
    [Unknown] for a missing type and the empty string for a missing value or
    default. *)
Theorem get_form_fields_table (pdf_bytes : bytes) (rd : reader)
        (d : dict field_data) :
  PdfReader pdf_bytes = Ok rd ->
  get_fields rd = Ok (Some d) ->
  NoDup (dict_keys d) ->
  get_form_fields pdf_bytes
  = Ok (map (fun nf => (fst nf, info_of (snd nf))) d).
Proof.
  intros Hrd Hfs Hnd. unfold get_form_fields. rewrite Hrd. simpl.
  rewrite Hfs. simpl. f_equal.
  apply (fold_dict_set _ _ fst (fun nf => info_of (snd nf)) d []); auto.
Qed.

(** X9: [get_sif_field_names] returns the field names of the template in
    ascending order, each as often as the template has it; in every other
    case, a template without form included, it raises [SifFillError]. *)
Theorem get_sif_field_names_sorted (sif_template_bytes : bytes) :
  match get_sif_field_names sif_template_bytes with
  | Ok names =>
      exists rd d,
        PdfReader sif_template_bytes = Ok rd
        /\ get_fields rd = Ok (Some d)
        /\ Sorted string_le names
        /\ Permutation names (dict_keys d)
  | Raise e =>
      exists msg,
        e = SifFillError msg
        /\ (forall rd, PdfReader sif_template_bytes = Ok rd ->
                       get_fields rd = Ok None -> msg = NO_FIELDS)
  end.
Proof.
  unfold get_sif_field_names.
  destruct (PdfReader sif_template_bytes) as [rd|e] eqn:Erd; simpl.
  - destruct (get_fields rd) as [[d|]|e] eqn:Efs; simpl.
    + exists rd, d. repeat split; auto.
      * apply sorted_Sorted.
      * apply sorted_perm.
    + exists NO_FIELDS. split; auto.
    + destruct e; eexists; (split; [reflexivity|]);
        intros rd' [= <-] H; congruence.
  - destruct e; eexists; (split; [reflexivity|]); intros rd' H; discriminate.
Qed.

(** X10: the unfilled fields are the template's field names that are not
    keys of the value map, in ascending order and without repetition; when the
    template cannot be read or has no form the list is empty. *)
Theorem get_unfilled_fields_difference
        (sif_template_bytes : bytes) (field_values : dict string) :
  let unfilled := get_unfilled_fields sif_template_bytes field_values in
  match PdfReader sif_template_bytes with
  | Ok rd =>
      match get_fields rd with
      | Ok (Some d) =>
          (forall n, In n unfilled
                     <-> In n (dict_keys d) /\ dict_get field_values n = None)
          /\ Sorted string_le unfilled
          /\ NoDup unfilled
      | _ => unfilled = []
      end
  | Raise _ => unfilled = []
  end.
Proof.
  unfold get_unfilled_fields.
  destruct (PdfReader sif_template_bytes) as [rd|e]; simpl; [|reflexivity].
  destruct (get_fields rd) as [[d|]|e]; simpl; try reflexivity.
  split; [|split].
  - intros n. rewrite sorted_in, filter_In, nodup_In.
    unfold dict_mem.
    destruct (dict_get field_values n); simpl; intuition congruence.
  - apply sorted_Sorted.
  - eapply Permutation_NoDup; [apply Permutation_sym, sorted_perm|].
    apply NoDup_filter, NoDup_nodup.
Qed.

(** X11: [validate_sif_fields] reports as missing exactly the expected
    fields the template lacks, in the order given, and answers [True] exactly
    when the template has a form holding every expected field; a template that
    cannot be read or has no form gives [False] with the whole expected list,
    even when nothing is expected. *)
Theorem validate_sif_fields_missing
        (sif_template_bytes : bytes) (expected_fields : list string) :
  let all_present := fst (validate_sif_fields sif_template_bytes expected_fields) in
  let missing := snd (validate_sif_fields sif_template_bytes expected_fields) in
  match PdfReader sif_template_bytes with
  | Ok rd =>
      match get_fields rd with
      | Ok (Some d) =>
          missing
          = filter (fun field => negb (dict_mem d field)) expected_fields
          /\ (forall f, In f missing
                        <-> In f expected_fields /\ ~ In f (dict_keys d))
          /\ (all_present = true
              <-> forall f, In f expected_fields -> In f (dict_keys d))
      | _ => all_present = false /\ missing = expected_fields
      end
  | Raise _ => all_present = false /\ missing = expected_fields
  end.
Proof.
  unfold validate_sif_fields.
  destruct (PdfReader sif_template_bytes) as [rd|e]; simpl; [|auto].
  destruct (get_fields rd) as [[d|]|e]; simpl; auto.
  assert (Hin : forall f,
             In f (filter (fun field => negb (dict_mem d field)) expected_fields)
             <-> In f expected_fields /\ ~ In f (dict_keys d)).
  { intros f. rewrite filter_In, negb_true_iff, <- dict_mem_keys.
    destruct (dict_mem d f); intuition congruence. }
  split; [reflexivity|]. split; [exact Hin|].
  rewrite Nat.eqb_eq, length_zero_iff_nil. split.
  - intros E f Hf.
    destruct (in_dec string_dec f (dict_keys d)) as [Hd|Hd]; [exact Hd|].
    exfalso. assert (H : In f []) by (rewrite <- E; apply Hin; auto).
    destruct H.
  - intros Hall. apply filter_none. intros f Hf.
    apply negb_false_iff, dict_mem_keys. auto.
Qed.

Lemma fill_handler_kind (e e' : exn) :
  fill_handler e = Raise e' -> exists msg, e' = SifFillError msg.
Proof. destruct e; simpl; intros [= <-]; eauto. Qed.

Lemma fill_sif_form_kind (sif_template_bytes : bytes)
      (field_values : dict string) (flatten : bool) (e : exn) :
  snd (fill_sif_form sif_template_bytes field_values flatten) = Raise e ->
  exists msg, e = SifFillError msg.
Proof.
  unfold fill_sif_form.
  destruct (fill_body sif_template_bytes field_values flatten) as [out [b|e0]];
    simpl; [discriminate|].
  apply fill_handler_kind.
Qed.

(** X12: filling raises nothing but [SifFillError]; [create_filled_sif]
    raises nothing else either, except the [KeyError] of its debug printing
    when the report carries an error only. *)
Theorem filling_raises_SifFillError
        (cms : CmsReportData) (sif_template_bytes : bytes)
        (field_values : dict string) (custom_mapping : option (dict string))
        (flatten debug : bool) (e : exn) :
  (snd (fill_sif_form sif_template_bytes field_values flatten) = Raise e ->
   exists msg, e = SifFillError msg)
  /\ (create_filled_sif percent_1f cms sif_template_bytes custom_mapping
                        flatten debug = Raise e ->
      (exists msg, e = SifFillError msg)
      \/ (debug = true /\ e = KeyError "'cms_extraction'")).
Proof.
  split; [apply fill_sif_form_kind|].
  unfold create_filled_sif.
  destruct (snd (fill_sif_form sif_template_bytes
                   (cms_to_sif_field_values cms custom_mapping) flatten))
    as [filled|e0] eqn:Ef; cbn [bind].
  - rewrite get_mapping_report_outcome. cbn [bind].
    destruct (mapping_report_body percent_1f cms sif_template_bytes
                                  custom_mapping); [discriminate|].
    destruct debug; [|discriminate]. intros [= <-]. auto.
  - intros [= <-]. left. eapply fill_sif_form_kind; eauto.
Qed.

(** X13: whatever fails inside [process_cms_report], [create_sif_from_cms]
    or [convert_cms_to_sif], the caller sees a [ConversionError]. *)
Theorem conversion_raises_ConversionError
        (cms : CmsReportData) (cms_pdf_bytes sif_template_bytes : bytes)
        (custom_mapping : option (dict string)) (flatten debug : bool)
        (e : exn) :
  (process_cms_report cms_pdf_bytes = Raise e ->
   exists msg, e = ConversionError msg)
  /\ (create_sif_from_cms percent_1f cms sif_template_bytes custom_mapping
                          flatten debug = Raise e ->
      exists msg, e = ConversionError msg)
  /\ (convert_cms_to_sif percent_1f cms_pdf_bytes sif_template_bytes
                         custom_mapping flatten debug = Raise e ->
      exists msg, e = ConversionError msg).
Proof.
  assert (Hp : forall e0, process_cms_report cms_pdf_bytes = Raise e0 ->
                          exists msg, e0 = ConversionError msg).
  { intros e0. unfold process_cms_report.
    destruct (extract_pdf_text cms_pdf_bytes) as [[text needs_ocr]|e1];
      cbn [bind try_except]; [discriminate|].
    destruct e1; intros [= <-]; eauto. }
  assert (Hc : forall c e0,
             create_sif_from_cms percent_1f c sif_template_bytes
                                 custom_mapping flatten debug = Raise e0 ->
             exists msg, e0 = ConversionError msg).
  { intros c e0. unfold create_sif_from_cms.
    destruct (create_filled_sif percent_1f c sif_template_bytes
                                custom_mapping flatten debug) as [r|e1];
      cbn [try_except]; [discriminate|].
    destruct e1; intros [= <-]; eauto. }
  split; [apply Hp|]. split; [apply Hc|].
  unfold convert_cms_to_sif.
  destruct (process_cms_report cms_pdf_bytes) as [c|e1] eqn:Ep; cbn [bind].
  - apply Hc.
  - intros [= <-]. now apply Hp.
Qed.

Lemma dict_set_length (V : Type) (d : dict V) k v :
  List.length (dict_set d k v) <= S (List.length d).
Proof.
  induction d as [|[k0 v0] d IH]; simpl; [lia|].
  destruct (String.eqb k0 k); simpl; lia.
Qed.

Lemma projection_length cd l :
  forall acc,
    List.length (fold_left (project_entry cd) l acc)
    <= List.length acc
       + List.length (filter (fun e => truthy (dict_get cd (fst e))) l).
Proof.
  induction l as [|[k t] l IH]; intros acc; cbn [fold_left filter fst].
  - lia.
  - specialize (IH (project_entry cd acc (k, t))).
    assert (H : List.length (project_entry cd acc (k, t))
                <= List.length acc
                   + (if truthy (dict_get cd k) then 1 else 0)).
    { unfold project_entry.
      destruct (truthy (dict_get cd k)); [|lia].
      destruct (dict_get cd k); [|lia].
      pose proof (dict_set_length _ acc t s). lia. }
    destruct (truthy (dict_get cd k)); cbn [List.length]; lia.
Qed.

Lemma filter_length (A : Type) (f : A -> bool) (l : list A) :
  List.length (filter f l) <= List.length l.
Proof. induction l as [|x l IH]; simpl; [lia|]. destruct (f x); simpl; lia. Qed.

Lemma nodup_keys_filter (f : string * string -> bool) (l : dict string) :
  NoDup (dict_keys l) -> NoDup (dict_keys (filter f l)).
Proof.
  unfold dict_keys. induction l as [|x l IH]; simpl; intros H; [constructor|].
  inversion H as [|? ? Hnot Hnd]; subst.
  destruct (f x); simpl; auto.
  constructor; auto. intros Hin. apply Hnot.
  apply in_map_iff in Hin. destruct Hin as (y & Ey & Hy).
  apply filter_In in Hy. rewrite <- Ey. apply in_map. tauto.
Qed.

Lemma projection_bounds_on (cd : dict string) (mapping : dict string) :
  List.length (fold_left (project_entry cd) mapping [])
  <= List.length mapping
  /\ (NoDup (dict_keys mapping) ->
      List.length (fold_left (project_entry cd) mapping [])
      <= List.length cd).
Proof.
  pose proof (projection_length cd mapping []) as H.
  cbn [List.length] in H.
  split.
  - pose proof (filter_length _
                  (fun e => truthy (dict_get cd (fst e))) mapping).
    lia.
  - intros Hnd.
    assert (Hle : List.length
                    (dict_keys
                       (filter (fun e => truthy (dict_get cd (fst e)))
                               mapping))
                  <= List.length (dict_keys cd)).
    { apply NoDup_incl_length; [now apply nodup_keys_filter|].
      intros k Hk. unfold dict_keys in Hk. apply in_map_iff in Hk.
      destruct Hk as ([k' t] & <- & Hin). apply filter_In in Hin.
      destruct Hin as [_ Ht]. apply truthy_true in Ht.
      destruct Ht as (v & Hv & _). apply dict_get_keys. eauto. }
    unfold dict_keys in Hle. rewrite !length_map in Hle. lia.
Qed.

Lemma cms_to_sif_field_values_unfold (cms : CmsReportData)
      (custom_mapping : option (dict string)) :
  cms_to_sif_field_values cms custom_mapping
  = fold_left (project_entry (to_dict cms))
              (effective_mapping custom_mapping) [].
Proof. reflexivity. Qed.

Lemma mapping_report_body_fields
      (cms : CmsReportData) (sif_template_bytes : bytes)
      (custom_mapping : option (dict string)) (st : mapping_report) :
  mapping_report_body percent_1f cms sif_template_bytes custom_mapping
  = Ok st ->
  successfully_mapped st
  = List.length (cms_to_sif_field_values cms custom_mapping)
  /\ total_mappings st = List.length (effective_mapping custom_mapping)
  /\ cms_total_fields st = List.length (to_dict cms)
  /\ extracted_fields st = dict_keys (to_dict cms)
  /\ unmapped_cms_fields st
     = filter (fun field => negb (dict_mem (effective_mapping custom_mapping)
                                           field))
              (dict_keys (to_dict cms))
  /\ cms_coverage st
     = coverage percent_1f (successfully_mapped st) (cms_total_fields st)
  /\ sif_coverage st
     = coverage percent_1f (successfully_mapped st) (sif_total_fields st).
Proof.
  unfold mapping_report_body.
  destruct (PdfReader sif_template_bytes) as [rd|e]; cbn [bind];
    [|discriminate].
  destruct (get_fields rd) as [fs|e]; cbn [bind]; [|discriminate].
  intros [= <-].
  cbn [successfully_mapped total_mappings cms_total_fields extracted_fields
       unmapped_cms_fields cms_coverage sif_coverage sif_total_fields].
  fold (effective_mapping custom_mapping).
  repeat (split; [reflexivity|]). reflexivity.
Qed.

Lemma coverage_na (mapped total : nat) :
  coverage percent_1f mapped total = "N/A" <-> total = 0.
Proof.
  unfold coverage. destruct total as [|n]; simpl; [tauto|].
  split; [|discriminate]. intros H. now apply percent_is_not_na in H.
Qed.

(** X14: in a report with statistics, a record field counts as unmapped
    exactly when it is in the dictionary view and is no key of the mapping in
    effect.  Under the default mapping no field is ever unmapped; under an
    empty mapping every extracted field is, and nothing counts as mapped. *)
Theorem report_unmapped_fields
        (cms : CmsReportData) (sif_template_bytes : bytes)
        (custom_mapping : option (dict string)) (st : mapping_report) :
  mapping_report_body percent_1f cms sif_template_bytes custom_mapping
  = Ok st ->
  (forall f, In f (unmapped_cms_fields st)
             <-> In f (extracted_fields st)
                 /\ dict_get (effective_mapping custom_mapping) f = None)
  /\ (custom_mapping = None -> unmapped_cms_fields st = [])
  /\ (custom_mapping = Some [] ->
      unmapped_cms_fields st = extracted_fields st
      /\ successfully_mapped st = 0
      /\ mapping_details st = []).
Proof.
  intros H.
  pose proof (mapping_report_body_details _ _ _ _ _ H) as Hd.
  apply mapping_report_body_fields in H.
  destruct H as (Hm & _ & _ & He & Hu & _).
  rewrite Hu, He, Hm. split; [|split].
  - intros f. rewrite filter_In. unfold dict_mem.
    destruct (dict_get (effective_mapping custom_mapping) f);
      simpl; intuition congruence.
  - intros ->. apply filter_none. intros f Hf.
    apply negb_false_iff. now apply default_mapping_has_view_keys in Hf.
  - intros ->. split; [|split].
    + apply filter_all. reflexivity.
    + reflexivity.
    + rewrite Hd. reflexivity.
Qed.

(** X15: in a report with statistics the number of mapped fields is at most
    the number of mapping entries and, the keys of the mapping being pairwise
    distinct, at most the number of extracted record fields, which never
    exceeds seventeen; a coverage reads [N/A] exactly when its own total is
    zero. *)
Theorem report_counts
        (cms : CmsReportData) (sif_template_bytes : bytes)
        (custom_mapping : option (dict string)) (st : mapping_report) :
  mapping_report_body percent_1f cms sif_template_bytes custom_mapping
  = Ok st ->
  successfully_mapped st <= total_mappings st
  /\ (NoDup (dict_keys (effective_mapping custom_mapping)) ->
      successfully_mapped st <= cms_total_fields st)
  /\ cms_total_fields st <= 17
  /\ (cms_coverage st = "N/A" <-> cms_total_fields st = 0)
  /\ (sif_coverage st = "N/A" <-> sif_total_fields st = 0).
Proof.
  intros H. apply mapping_report_body_fields in H.
  destruct H as (Hm & Ht & Hc & _ & _ & Hcc & Hsc).
  rewrite Hcc, Hsc, !coverage_na.
  rewrite Hm, Ht, Hc, cms_to_sif_field_values_unfold.
  destruct (projection_bounds_on (to_dict cms)
                                 (effective_mapping custom_mapping))
    as [B1 B2].
  repeat split; auto.
  apply (to_dict_lookup_length cms).
Qed.


(** X17: [validate_sif_template] always answers with a validation result,
    never with its failure branch: the field count is the number of listed
    fields, the template is valid exactly when that count is positive, and
    bytes that are no document come out as invalid, without fields, with the
    loader's error as metadata. *)
Theorem validate_sif_template_never_fails (sif_template_bytes : bytes) :
  exists is_valid n fields meta message,
    validate_sif_template is_encrypted metadata sif_template_bytes
    = Validation is_valid n fields meta message
    /\ n = List.length fields
    /\ (is_valid = true <-> 0 < n)
    /\ (is_valid = false <-> message = "No form fields found in PDF")
    /\ (forall e, PdfReader sif_template_bytes = Raise e ->
                  is_valid = false /\ fields = []
                  /\ meta = MetadataError (exn_str e)).
Proof.
  unfold validate_sif_template.
  destruct (get_form_fields_total sif_template_bytes) as [table Ht].
  rewrite Ht. do 5 eexists. split; [reflexivity|].
  split; [unfold dict_keys; now rewrite length_map|].
  split; [apply Nat.ltb_lt|]. split.
  - destruct (0 <? List.length table); split; intros; congruence.
  - intros e He. unfold get_form_fields in Ht. rewrite He in Ht.
    injection Ht as <-. unfold get_pdf_metadata. rewrite He.
    repeat split; reflexivity.
Qed.

End ToolFacts.

(** ** The date written by [extract_cms] *)

Lemma digit_value_digit (n : nat) : digit_value (digit n) = n mod 10.
Proof.
  unfold digit_value, digit.
  pose proof (Nat.mod_upper_bound n 10 ltac:(lia)) as H.
  rewrite nat_ascii_embedding by lia. lia.
Qed.

Lemma digit_is_digit (n : nat) : is_digit (digit n) = true.
Proof.
  unfold is_digit, digit.
  pose proof (Nat.mod_upper_bound n 10 ltac:(lia)) as H.
  rewrite nat_ascii_embedding by lia.
  apply andb_true_intro. split; apply Nat.leb_le; lia.
Qed.

Lemma two_digits (n : nat) :
  n < 100 -> 10 * (n / 10 mod 10) + n mod 10 = n.
Proof.
  intros H. rewrite (Nat.mod_small (n / 10) 10).
  - symmetry. apply Nat.div_mod_eq.
  - apply Nat.Div0.div_lt_upper_bound. lia.
Qed.

Lemma four_digits (n : nat) :
  n / 1000 <= 9 ->
  10 * (10 * (10 * (n / 1000 mod 10) + n / 100 mod 10) + n / 10 mod 10)
  + n mod 10 = n.
Proof.
  intros H.
  rewrite (Nat.mod_small (n / 1000) 10) by lia.
  pose proof (Nat.div_mod_eq n 10) as E1.
  pose proof (Nat.div_mod_eq (n / 10) 10) as E2.
  pose proof (Nat.div_mod_eq (n / 100) 10) as E3.
  assert (L2 : n / 10 / 10 = n / 100)
    by (rewrite Nat.Div0.div_div; reflexivity).
  assert (L3 : n / 100 / 10 = n / 1000)
    by (rewrite Nat.Div0.div_div; reflexivity).
  rewrite L2 in E2. rewrite L3 in E3. lia.
Qed.

(** X18: [extract_cms] always leaves a service date: the extracted one,
    with the record untouched, when there is one, and otherwise today's date,
    with every other attribute as extracted.  That date is two digits, a
    slash, two digits, a slash and four digits, and reads back as the month,
    the day and the year of the calendar date. *)
Theorem extract_cms_dates_the_record (now : datetime) (ocr_text : string) :
  calendar_date now ->
  truthy (service_date (extract_cms now ocr_text)) = true
  /\ (truthy (service_date (parse_cms_report ocr_text)) = true ->
      extract_cms now ocr_text = parse_cms_report ocr_text)
  /\ (truthy (service_date (parse_cms_report ocr_text)) = false ->
      extract_cms now ocr_text
      = with_service_date (parse_cms_report ocr_text)
                          (Some (strftime_mdY now)))
  /\ exists mm dd yyyy,
      strftime_mdY now = (mm ++ "/" ++ dd ++ "/" ++ yyyy)%string
      /\ String.length mm = 2 /\ String.length dd = 2
      /\ String.length yyyy = 4
      /\ all_chars is_digit mm /\ all_chars is_digit dd
      /\ all_chars is_digit yyyy
      /\ decimal mm = month now /\ decimal dd = day now
      /\ decimal yyyy = year now.
Proof.
  intros (Hy & Hm & Hd).
  unfold extract_cms.
  remember (parse_cms_report ocr_text) as extracted eqn:Ee. clear Ee.
  split; [|split; [|split]].
  - destruct (truthy (service_date extracted)) eqn:E; cbn [negb];
      [exact E | reflexivity].
  - now intros ->.
  - now intros ->.
  - exists (string_of_list_ascii [digit (month now / 10); digit (month now)]),
           (string_of_list_ascii [digit (day now / 10); digit (day now)]),
           (string_of_list_ascii
              [digit (year now / 1000); digit (year now / 100);
               digit (year now / 10); digit (year now)]).
    split; [reflexivity|]. split; [reflexivity|]. split; [reflexivity|].
    split; [reflexivity|].
    split; [repeat constructor; apply digit_is_digit|].
    split; [repeat constructor; apply digit_is_digit|].
    split; [repeat constructor; apply digit_is_digit|].
    unfold decimal. cbn [string_of_list_ascii list_ascii_of_string fold_left].
    rewrite !digit_value_digit.
    rewrite !Nat.mul_0_r, !Nat.add_0_l.
    split; [|split].
    + apply two_digits. lia.
    + apply two_digits. lia.
    + now apply four_digits.
Qed.

Lemma extract_cms_dates_the_record_witness :
  calendar_date a_day
  /\ service_date (extract_cms a_day "Wind Farm: ABC-12") = Some "11/04/2026".
Proof.
  assert (Hc : calendar_date a_day) by (vm_compute; repeat split; lia).
  split; [exact Hc|].
  destruct (extract_cms_dates_the_record a_day "Wind Farm: ABC-12" Hc)
    as (_ & _ & H & _).
  rewrite H by (vm_compute; reflexivity). reflexivity.
Defined.

(** ** The further statements on concrete inputs *)

Lemma extracted_values_are_trimmed_pieces_witness :
  dict_get (to_dict (parse_cms_report "Wind Farm:  ABC-12  ")) "wind_farm"
  = Some "ABC-12"
  /\ "wind_farm" <> "technicians"
  /\ occurs_in "ABC-12" "Wind Farm:  ABC-12  "
  /\ trimmed "ABC-12".
Proof.
  assert (H1 : dict_get (to_dict (parse_cms_report "Wind Farm:  ABC-12  "))
                        "wind_farm" = Some "ABC-12")
    by (vm_compute; reflexivity).
  assert (H2 : "wind_farm" <> "technicians") by discriminate.
  split; [exact H1|]. split; [exact H2|].
  exact (extracted_values_are_trimmed_pieces
           "Wind Farm:  ABC-12  " "wind_farm" "ABC-12" H1 H2).
Defined.


Lemma get_form_fields_table_witness :
  get_form_fields (lib := Sample.lib) (Sample.template_of ["A"; "B"])
  = Ok [("A", {| fi_type := "/Tx"; fi_value := ""; fi_default := "" |});
        ("B", {| fi_type := "/Tx"; fi_value := ""; fi_default := "" |})].
Proof.
  apply (get_form_fields_table (lib := Sample.lib)
           (Sample.template_of ["A"; "B"]) (Sample.template_of ["A"; "B"])
           [("A", Sample.text_field); ("B", Sample.text_field)]).
  - reflexivity.
  - reflexivity.
  - apply distinct_NoDup. reflexivity.
Defined.

Lemma filling_raises_SifFillError_witness :
  snd (fill_sif_form (lib := Sample.lib) Sample.no_form [("A", "x")] false)
  = Raise (SifFillError NO_FIELDS)
  /\ exists msg, SifFillError NO_FIELDS = SifFillError msg.
Proof.
  split; [reflexivity|].
  apply (proj1 (filling_raises_SifFillError (lib := Sample.lib)
                  sample_percent farm_and_location Sample.no_form
                  [("A", "x")] None false false (SifFillError NO_FIELDS))).
  reflexivity.
Defined.

Lemma conversion_raises_ConversionError_witness :
  exists msg,
    convert_cms_to_sif (lib := Sample.lib) sample_percent Sample.garbage
                       (Sample.template_of ["Date"]) None false false
    = Raise (ConversionError msg).
Proof.
  destruct (convert_cms_to_sif (lib := Sample.lib) sample_percent
              Sample.garbage (Sample.template_of ["Date"]) None false false)
    as [r|e] eqn:E; [vm_compute in E; discriminate|].
  destruct (proj2 (proj2 (conversion_raises_ConversionError
                            (lib := Sample.lib) sample_percent
                            farm_and_location Sample.garbage
                            (Sample.template_of ["Date"]) None false false e))
                  E) as [msg ->].
  exists msg. reflexivity.
Defined.

Lemma report_unmapped_fields_witness :
  exists st,
    mapping_report_body (lib := Sample.lib) sample_percent farm_and_location
                        (Sample.template_of ["Site location"; "Date"]) None
    = Ok st
    /\ unmapped_cms_fields st = [].
Proof.
  destruct (mapping_report_body (lib := Sample.lib) sample_percent
              farm_and_location
              (Sample.template_of ["Site location"; "Date"]) None)
    as [st|e] eqn:E; [|vm_compute in E; discriminate].
  exists st. split; [reflexivity|].
  destruct (report_unmapped_fields (lib := Sample.lib) sample_percent
              farm_and_location
              (Sample.template_of ["Site location"; "Date"]) None st E)
    as (_ & H & _).
  now apply H.
Defined.

Lemma report_counts_witness :
  exists st,
    mapping_report_body (lib := Sample.lib) sample_percent farm_and_location
                        (Sample.template_of ["Site location"; "Date"]) None
    = Ok st
    /\ successfully_mapped st <= total_mappings st
    /\ successfully_mapped st <= cms_total_fields st.
Proof.
  destruct (mapping_report_body (lib := Sample.lib) sample_percent
              farm_and_location
              (Sample.template_of ["Site location"; "Date"]) None)
    as [st|e] eqn:E; [|vm_compute in E; discriminate].
  exists st. split; [reflexivity|].
  destruct (report_counts (lib := Sample.lib) sample_percent
              farm_and_location
              (Sample.template_of ["Site location"; "Date"]) None st E)
    as (H1 & H2 & _).
  split; [exact H1|]. apply H2.
  apply distinct_NoDup. vm_compute. reflexivity.
Defined.

(** The names come back in ascending order of code points. *)
Example field_names_in_order :
  get_sif_field_names (lib := Sample.lib)
                      (Sample.template_of ["Gateway"; "Date"; "DateRow1"])
  = Ok ["Date"; "DateRow1"; "Gateway"].
Proof. vm_compute. reflexivity. Qed.

(** Nothing expected of a document without form: the answer is still no. *)
Example nothing_expected_of_no_form :
  validate_sif_fields (lib := Sample.lib) Sample.no_form [] = (false, [])
  /\ validate_sif_fields (lib := Sample.lib) (Sample.template_of ["A"]) []
     = (true, []).
Proof. vm_compute. auto. Qed.

(** A template coverage above one hundred percent: two mapped values, one
    template field. *)
Example more_mapped_than_template_fields :
  exists st,
    mapping_report_body (lib := Sample.lib) sample_percent farm_and_location
                        (Sample.template_of ["Date"]) None
    = Ok st
    /\ successfully_mapped st = 2 /\ sif_total_fields st = 1.
Proof. eexists. split; [vm_compute; reflexivity|]. split; reflexivity. Qed.

(** ** The conversion as a composition *)

Section Composition.
Context {lib : PdfLib}.
Variable percent_1f : nat -> nat -> string.

Lemma mapping_report_body_unfilled
      (cms : CmsReportData) (sif_template_bytes : bytes)
      (custom_mapping : option (dict string)) (st : mapping_report) :
  mapping_report_body percent_1f cms sif_template_bytes custom_mapping
  = Ok st ->
  unfilled_sif_fields st
  = get_unfilled_fields sif_template_bytes
                        (cms_to_sif_field_values cms custom_mapping).
Proof.
  unfold mapping_report_body.
  destruct (PdfReader sif_template_bytes) as [rd|e]; cbn [bind];
    [|discriminate].
  destruct (get_fields rd) as [fs|e]; cbn [bind]; [|discriminate].
  intros [= <-]. reflexivity.
Qed.

(** X19: a successful conversion is the composition of its stages: the
    report is readable, the record is the engine's reading of the extracted
    text, the document returned is the template filled with the projection of
    that record, and the report returned is the mapping report of the same
    record, whose mapping details and unfilled fields refer to that same
    projection; with debug printing on, the report carries statistics. *)
Theorem convert_cms_to_sif_composes
        (cms_pdf_bytes sif_template_bytes : bytes)
        (custom_mapping : option (dict string)) (flatten debug : bool)
        (pdf : bytes) (rp : report) :
  convert_cms_to_sif percent_1f cms_pdf_bytes sif_template_bytes
                     custom_mapping flatten debug
  = Ok (pdf, rp) ->
  exists rd cms,
    PdfReader cms_pdf_bytes = Ok rd
    /\ cms = parse_cms_report (join NL (map page_text (pages rd)))
    /\ snd (fill_sif_form sif_template_bytes
              (cms_to_sif_field_values cms custom_mapping) flatten)
       = Ok pdf
    /\ get_mapping_report percent_1f cms sif_template_bytes custom_mapping
       = Ok rp
    /\ (debug = true -> exists st, rp = Statistics st)
    /\ (forall st,
           rp = Statistics st ->
           mapping_details st = cms_to_sif_field_values cms custom_mapping
           /\ unfilled_sif_fields st
              = get_unfilled_fields
                  sif_template_bytes
                  (cms_to_sif_field_values cms custom_mapping)).
Proof.
  unfold convert_cms_to_sif, process_cms_report, extract_pdf_text,
    extract_text_with_ocr.
  destruct (PdfReader cms_pdf_bytes) as [rd|e]; cbn [bind try_except];
    [|discriminate].
  rewrite ocr_placeholder_is_refused.
  set (text := join NL (map page_text (pages rd))).
  replace (if String.length (strip text) <? 100 then text else text)
    with text by now destruct (String.length (strip text) <? 100).
  remember (parse_cms_report text) as cms eqn:Ecms.
  unfold create_sif_from_cms, create_filled_sif.
  destruct (snd (fill_sif_form sif_template_bytes
                   (cms_to_sif_field_values cms custom_mapping) flatten))
    as [filled|e] eqn:Ef; cbn [bind try_except];
    [|destruct e; discriminate].
  rewrite get_mapping_report_outcome. cbn [bind].
  destruct (mapping_report_body percent_1f cms sif_template_bytes
                                custom_mapping) as [st|e] eqn:Eb.
  - cbn [try_except]. intros [= <- <-].
    exists rd, cms.
    split; [reflexivity|]. split; [exact Ecms|]. split; [exact Ef|].
    split; [now rewrite get_mapping_report_outcome, Eb|]. split; [eauto|].
    intros st' [= <-]. split.
    + eapply mapping_report_body_details; eauto.
    + now apply mapping_report_body_unfilled.
  - destruct debug; cbn [try_except]; [discriminate|].
    intros [= <- <-]. exists rd, cms.
    split; [reflexivity|]. split; [exact Ecms|]. split; [exact Ef|].
    split; [now rewrite get_mapping_report_outcome, Eb|].
    split; [discriminate|].
    intros st' H. discriminate.
Qed.

End Composition.

Lemma convert_cms_to_sif_composes_witness :
  exists pdf st,
    convert_cms_to_sif (lib := Sample.lib) sample_percent
      (Sample.report_of "Wind Farm: ABC-12")
      (Sample.template_of ["Wind farm number"; "Date"]) None false false
    = Ok (pdf, Statistics st)
    /\ unfilled_sif_fields st = ["Date"].
Proof.
  destruct (convert_cms_to_sif (lib := Sample.lib) sample_percent
              (Sample.report_of "Wind Farm: ABC-12")
              (Sample.template_of ["Wind farm number"; "Date"])
              None false false) as [[pdf [st|err]]|e] eqn:E;
    try (vm_compute in E; discriminate).
  exists pdf, st. split; [reflexivity|].
  destruct (convert_cms_to_sif_composes (lib := Sample.lib) sample_percent
              _ _ _ _ _ _ _ E) as (rd & cms & Hrd & -> & _ & _ & _ & H).
  destruct (H st eq_refl) as [_ ->].
  injection Hrd as <-. vm_compute. reflexivity.
Defined.

(** ** Copying a document *)

(** X20: filling a template that has a form with an empty value map prints
    nothing and returns what saving a plain clone returns; when the template
    cannot be cloned the cloner raises [PdfLoadError] and filling raises
    [SifFillError]. *)
Theorem fill_without_values_is_a_copy
        {lib : PdfLib} (sif_template_bytes : bytes) (flatten : bool) :
  match clone_pdf_for_writing sif_template_bytes with
  | Ok w =>
      forall fs,
        writer_get_fields w = Ok (Some fs) ->
        fill_sif_form sif_template_bytes [] flatten
        = ([], try_except (save_pdf_to_bytes w) fill_handler)
  | Raise e =>
      (exists msg, e = PdfLoadError msg)
      /\ exists msg,
          snd (fill_sif_form sif_template_bytes [] flatten)
          = Raise (SifFillError msg)
  end.
Proof.
  unfold clone_pdf_for_writing, fill_sif_form, fill_body, save_pdf_to_bytes.
  destruct (PdfReader sif_template_bytes) as [rd|e]; cbn [bind try_except].
  - destruct (clone_document_from_reader rd) as [w|e]; cbn [bind try_except].
    + intros fs ->. reflexivity.
    + split; [eauto|]. destruct e; cbn; eauto.
  - split; [eauto|]. destruct e; cbn; eauto.
Qed.

Lemma fill_without_values_is_a_copy_witness :
  fill_sif_form (lib := Sample.lib) (Sample.template_of ["A"]) [] true
  = ([], Ok (Sample.template_of ["A"])).
Proof.
  exact (fill_without_values_is_a_copy (lib := Sample.lib)
           (Sample.template_of ["A"]) true
           [("A", Sample.text_field)] eq_refl).
Defined.
